(** * Person resolution and response assembly of the Gemini sheets bot

    A shallow embedding of [app/people/find.py], [app/sheets/client.py],
    [app/llm/gemini.py] and [app/routes/chat.py], and the properties of the
    resolution, caching and reconciliation pipeline proved over it.

    Conventions.
    - A Python [str] is a [string]; one [ascii] stands for one character, so
      the embedding is character-exact on ASCII text.  The fixed Turkish
      messages are kept as they are (UTF-8) and never inspected.
    - A Python [dict] with string keys is a [gmap string _]; [d.get(k, "")]
      is [get d k].
    - A Python [float] is a rational ([Q]).  The floats of this program are
      the constants 0.0, 0.3, 0.85 and the quotients [2*M/T] of
      [SequenceMatcher.ratio], [T] being the summed length of two names;
      rounding is monotone, and two such quotients (or one and 0.85) that
      differ as rationals differ by far more than one rounding step, so the
      comparisons of the program are the comparisons of the rationals.
    - "Truthiness" tests ([if x:], [x or y]) are written out for each type. *)

From Stdlib Require Import Ascii String QArith Lqa.
From stdpp Require Import gmap strings list fin_maps.

Local Open Scope string_scope.

(** ** Python helpers *)

(** [bool(s)] for a [str]. *)
Definition str_truthy (s : string) : bool :=
  match s with
  | EmptyString => false
  | String _ _ => true
  end.

(** [bool(o)] for an [Optional[str]]. *)
Definition opt_truthy (o : option string) : bool :=
  match o with
  | Some s => str_truthy s
  | None => false
  end.

(** [bool(d)] for a [dict]. *)
Definition dict_truthy {V} (d : gmap string V) : bool :=
  bool_decide (d ≠ ∅).

(** [d.get(k, "")] *)
Definition get (d : gmap string string) (k : string) : string :=
  default "" (d !! k).

(** [s.startswith(p)] *)
Fixpoint startswith (s p : string) {struct p} : bool :=
  match p with
  | EmptyString => true
  | String a p' =>
      match s with
      | EmptyString => false
      | String b s' => Ascii.eqb b a && startswith s' p'
      end
  end.

(** [s[1:]] *)
Definition drop_first (s : string) : string :=
  match s with
  | EmptyString => EmptyString
  | String _ t => t
  end.

(** The characters of a string, in order. *)
Fixpoint chars (s : string) : list ascii :=
  match s with
  | EmptyString => []
  | String c t => c :: chars t
  end.

Definition Qgeb (x y : Q) : bool := Qle_bool y x.
Definition Qgtb (x y : Q) : bool := negb (Qle_bool x y).

(** ** PhoneNormalizer ([PersonFinder._normalize_phone]) *)

(** [\d] on the characters of the embedding: the ten decimal digits.
    (On full Unicode text the class also holds the decimal digits of other
    scripts; they are outside the characters modelled here.) *)
Definition is_digit (c : ascii) : bool :=
  let n := N_of_ascii c in ((48 <=? n) && (n <=? 57))%N.

Definition is_plus (c : ascii) : bool := Ascii.eqb c "+"%char.

(** The class [[^\d+]] matches what is neither a digit nor a plus sign. *)
Definition digit_or_plus (c : ascii) : bool := is_digit c || is_plus c.

(** [re.sub(r'[^\d+]', '', phone)] *)
Fixpoint strip_non_phone (phone : string) : string :=
  match phone with
  | EmptyString => EmptyString
  | String c t =>
      if digit_or_plus c then String c (strip_non_phone t)
      else strip_non_phone t
  end.

Definition _normalize_phone (phone : string) : string :=
  if negb (str_truthy phone) then ""
  else
    let normalized := strip_non_phone phone in
    if startswith normalized "+" then normalized
    else if startswith normalized "90" then "+" +:+ normalized
    else if startswith normalized "0" then "+90" +:+ drop_first normalized
    else "+" +:+ normalized.

(** ** Person records and [PersonFinder.find_by_phone] *)

(** One row of the People sheet, as the dictionary [get_people_data] builds. *)
Abbreviation Person := (gmap string string).

(** The [for person in self.people_data] scan of [find_by_phone]. *)
Fixpoint scan_phone (normalized_phone : string) (people_data : list Person)
  : option Person :=
  match people_data with
  | [] => None
  | person :: rest =>
      let person_phone := _normalize_phone (get person "phone") in
      if String.eqb person_phone normalized_phone then Some person
      else scan_phone normalized_phone rest
  end.

Definition find_by_phone (people_data : list Person) (phone : string)
  : option Person :=
  if negb (str_truthy phone) then None
  else scan_phone (_normalize_phone phone) people_data.

(** Character classes used to describe phone strings. *)
Definition no_digit (s : string) : bool :=
  forallb (fun c => negb (is_digit c)) (chars s).

Definition no_plus (s : string) : bool :=
  forallb (fun c => negb (is_plus c)) (chars s).

Fixpoint count_plus (s : string) : nat :=
  match s with
  | EmptyString => 0
  | String c t => ((if is_plus c then 1 else 0) + count_plus t)%nat
  end.

(** A run of [n] plus signs. *)
Fixpoint pluses (n : nat) : string :=
  match n with
  | O => EmptyString
  | S n' => String "+" (pluses n')
  end.

(** A stored phone that is non-empty and holds no digit. *)
Definition nonempty_digit_free (s : string) : bool :=
  str_truthy s && no_digit s.

(** A stored phone that is non-empty and holds neither a digit nor a plus. *)
Definition nonempty_symbols_only (s : string) : bool :=
  str_truthy s && no_digit s && no_plus s.

(** A stored phone that is non-empty, holds no digit and at most one plus. *)
Definition nonempty_at_most_one_plus (s : string) : bool :=
  str_truthy s && no_digit s && (count_plus s <=? 1)%nat.

(** The first record whose stored phone passes [test]. *)
Definition first_with_phone (test : string -> bool) (people_data : list Person)
  : option Person :=
  List.find (fun person => test (get person "phone")) people_data.

(** Records used in the examples about digit-free phones. *)
Definition rec_plus_plus : Person := {[ "person_id" := "p1"; "phone" := "++" ]}.
Definition rec_plus : Person := {[ "person_id" := "p2"; "phone" := "+" ]}.
Definition rec_dash : Person := {[ "person_id" := "p3"; "phone" := "-" ]}.

(** ** Library functions used by the name matcher

    [difflib.SequenceMatcher(None, a, b).ratio()], [str.lower] and
    [str.strip] belong to the Python library.  The finder below takes them
    as parameters; this section gives their ASCII behaviour, used to run the
    finder on concrete names. *)

Section SequenceMatcher.
Variables a b : list ascii.

(** [__chain_b]: no junk predicate is given; with [autojunk] and at least
    200 elements in [b], an element occurring more than [len(b)//100 + 1]
    times is popular and leaves [b2j]. *)
Definition popular (c : ascii) : bool :=
  let n := length b in
  (200 <=? n)%nat
  && (n / 100 + 1 <? length (List.filter (Ascii.eqb c) b))%nat.

(** [b2j.get(c, [])]: the positions of [c] in [b], increasing. *)
Definition b2j (c : ascii) : list nat :=
  if popular c then []
  else
    List.filter
      (fun j => match b !! j with
                | Some x => Ascii.eqb x c
                | None => false
                end)
      (seq 0 (length b)).

(** One pass of the inner loop [for j in b2j.get(a[i], nothing)]:
    [continue] below [blo]; at or past [bhi] the loop breaks, and since the
    positions increase no later one is used either. *)
Definition flm_inner (i blo bhi : nat) (j2len : gmap nat nat)
    (acc : gmap nat nat * (nat * nat * nat)) (j : nat)
  : gmap nat nat * (nat * nat * nat) :=
  let '(newj2len, (besti, bestj, bestsize)) := acc in
  if (j <? blo)%nat then acc
  else if (bhi <=? j)%nat then acc
  else
    let k := (match j with
              | O => 0
              | S j' => default 0 (j2len !! j')
              end + 1)%nat in
    let newj2len := <[j := k]> newj2len in
    if (bestsize <? k)%nat
    then (newj2len, ((i + 1 - k)%nat, (j + 1 - k)%nat, k))
    else (newj2len, (besti, bestj, bestsize)).

(** One pass of the outer loop [for i in range(alo, ahi)]. *)
Definition flm_outer (blo bhi : nat)
    (st : gmap nat nat * (nat * nat * nat)) (i : nat)
  : gmap nat nat * (nat * nat * nat) :=
  let '(j2len, best) := st in
  match a !! i with
  | Some c => foldl (flm_inner i blo bhi j2len) (∅, best) (b2j c)
  | None => (∅, best)
  end.

(** [while besti > alo and bestj > blo and a[besti-1] == b[bestj-1]] *)
Fixpoint extend_left (fuel alo blo besti bestj bestsize : nat)
  : nat * nat * nat :=
  match fuel with
  | O => (besti, bestj, bestsize)
  | S fuel' =>
      if (alo <? besti)%nat && (blo <? bestj)%nat
         && match a !! (besti - 1)%nat, b !! (bestj - 1)%nat with
            | Some x, Some y => Ascii.eqb x y
            | _, _ => false
            end
      then extend_left fuel' alo blo (besti - 1)%nat (bestj - 1)%nat
                       (bestsize + 1)%nat
      else (besti, bestj, bestsize)
  end.

(** [while besti+bestsize < ahi and bestj+bestsize < bhi and
    a[besti+bestsize] == b[bestj+bestsize]] *)
Fixpoint extend_right (fuel ahi bhi besti bestj bestsize : nat)
  : nat * nat * nat :=
  match fuel with
  | O => (besti, bestj, bestsize)
  | S fuel' =>
      if (besti + bestsize <? ahi)%nat && (bestj + bestsize <? bhi)%nat
         && match a !! (besti + bestsize)%nat, b !! (bestj + bestsize)%nat with
            | Some x, Some y => Ascii.eqb x y
            | _, _ => false
            end
      then extend_right fuel' ahi bhi besti bestj (bestsize + 1)%nat
      else (besti, bestj, bestsize)
  end.

(** [find_longest_match(alo, ahi, blo, bhi)].  The junk set is empty, so
    the two closing loops over junk elements never run. *)
Definition find_longest_match (alo ahi blo bhi : nat) : nat * nat * nat :=
  let '(_, (besti, bestj, bestsize)) :=
    foldl (flm_outer blo bhi) (∅, (alo, blo, 0%nat)) (seq alo (ahi - alo)) in
  let '(besti, bestj, bestsize) :=
    extend_left besti alo blo besti bestj bestsize in
  extend_right ahi ahi bhi besti bestj bestsize.

(** The blocks [get_matching_blocks] collects from its work queue, in
    sorted order.  Every recursive call works on a strictly shorter piece
    of [a], so [length a + 1] units of fuel reach every piece. *)
Fixpoint matching_blocks (fuel alo ahi blo bhi : nat)
  : list (nat * nat * nat) :=
  match fuel with
  | O => []
  | S fuel' =>
      let '(i, j, k) := find_longest_match alo ahi blo bhi in
      if (k =? 0)%nat then []
      else
        (if (alo <? i)%nat && (blo <? j)%nat
         then matching_blocks fuel' alo i blo j else [])
        ++ (i, j, k)
        :: (if (i + k <? ahi)%nat && (j + k <? bhi)%nat
            then matching_blocks fuel' (i + k)%nat ahi (j + k)%nat bhi
            else [])
  end.

Definition matches : nat :=
  foldr (fun blk acc => (snd blk + acc)%nat) 0%nat
        (matching_blocks (length a + 1) 0 (length a) 0 (length b)).

(** [ratio()]: [2.0 * matches / length], and [1.0] when both are empty. *)
Definition sm_ratio_chars : Q :=
  let len := (length a + length b)%nat in
  match len with
  | O => 1%Q
  | S _ => ((2 * Z.of_nat matches) # (Pos.of_nat len))%Q
  end.
End SequenceMatcher.

(** [SequenceMatcher(None, a, b).ratio()] on strings. *)
Definition sm_ratio (a b : string) : Q := sm_ratio_chars (chars a) (chars b).

(** [str.lower] on ASCII letters. *)
Definition lower_char (c : ascii) : ascii :=
  let n := N_of_ascii c in
  if ((65 <=? n) && (n <=? 90))%N then ascii_of_N (n + 32) else c.

Fixpoint str_lower (s : string) : string :=
  match s with
  | EmptyString => EmptyString
  | String c t => String (lower_char c) (str_lower t)
  end.

(** The ASCII characters [str.strip] removes. *)
Definition is_space (c : ascii) : bool :=
  let n := N_of_ascii c in
  ((9 <=? n) && (n <=? 13) || (28 <=? n) && (n <=? 32))%N.

Fixpoint lstrip (s : string) : string :=
  match s with
  | EmptyString => EmptyString
  | String c t => if is_space c then lstrip t else s
  end.

Fixpoint rstrip (s : string) : string :=
  match s with
  | EmptyString => EmptyString
  | String c t =>
      match rstrip t with
      | EmptyString => if is_space c then EmptyString else String c EmptyString
      | t' => String c t'
      end
  end.

Definition str_strip (s : string) : string := rstrip (lstrip s).

(** ** Values exchanged with the generation service *)

(** What [json.loads] can return.  [JNonFinite] stands for the [NaN] and
    [Infinity] literals the Python parser accepts. *)
#[warnings="-register-all"]
Inductive json : Type :=
  | JNull
  | JBool (b : bool)
  | JNum (q : Q)
  | JNonFinite
  | JStr (s : string)
  | JArr (items : list json)
  | JObj (fields : gmap string json).

(** [bool(v)] for a parsed JSON value. *)
Definition json_truthy (v : json) : bool :=
  match v with
  | JNull => false
  | JBool b => b
  | JNum q => negb (Qeq_bool q 0%Q)
  | JNonFinite => true
  | JStr s => str_truthy s
  | JArr items => match items with [] => false | _ :: _ => true end
  | JObj fields => dict_truthy fields
  end.

(** [app/models/response.py] *)
Record Reference := {
  source : string;
  person_id : option string
}.

Record ChatResponse := {
  answer_text : string;
  intent : string;
  confidence : Q;
  references : list Reference;
  meta : option (gmap string json)
}.

Record ErrorResponse := {
  err_answer_text : string;
  err_intent : string;
  err_confidence : Q;
  err_references : list Reference
}.

(** [app/models/request.py] *)
Record UserInfo := {
  name : option string;
  phone : option string;
  locale : option string
}.

Record ChatRequest := {
  message : string;
  user : option UserInfo
}.

(** The values of [app/core/config.py] the pipeline reads. *)
Record Settings := {
  default_locale : string;
  cache_ttl : Z
}.

(** A call either returns or raises. *)
Inductive result (A : Type) : Type :=
  | Return (x : A)
  | Raise.
Arguments Return {A} x.
Arguments Raise {A}.

(** What [chat_endpoint] hands back: the response model (status 200) or the
    [JSONResponse] with status 500. *)
Inductive HttpResponse : Type :=
  | Http200 (r : ChatResponse)
  | Http500 (e : ErrorResponse).

(** What one call of the generation service does: it raises (building the
    model, [generate_content], reading [resp.text] or the candidates), it
    yields no text, it yields text [json.loads] rejects, or text that parses
    to [data]. *)
Inductive llm_outcome : Type :=
  | LlmRaises
  | LlmNoText
  | LlmBadJson
  | LlmJson (data : json).

(** ** TableCache ([cachetools.TTLCache] as [SheetsClient] uses it)

    Times are readings of the cache's monotonic timer, [ttl] is in the same
    unit.  A link holds the cached value and the time it expires. *)
Record TTLCache := {
  ttl : Z;
  links : gmap string (list Person * Z)
}.

(** [key in cache] at timer reading [now] *)
Definition cache_contains (c : TTLCache) (key : string) (now : Z) : bool :=
  match links c !! key with
  | Some (_, expires) => (now <? expires)%Z
  | None => false
  end.

(** [cache[key]] at timer reading [now]; a missing or expired key raises
    [KeyError]. *)
Definition cache_getitem (c : TTLCache) (key : string) (now : Z)
  : result (list Person) :=
  match links c !! key with
  | Some (value, expires) => if (now <? expires)%Z then Return value else Raise
  | None => Raise
  end.

(** [cache[key] = value] at timer reading [now]: expired links are dropped,
    the value is stored and expires at [now + ttl].  (The size bound of 100
    entries is never reached: one key is used.) *)
Definition cache_setitem (c : TTLCache) (key : string) (value : list Person)
    (now : Z) : TTLCache :=
  {| ttl := ttl c;
     links := <[key := (value, (now + ttl c)%Z)]>
                (filter (fun kv => (now < snd (snd kv))%Z) (links c)) |}.

(** [SheetsClient.__init__] *)
Definition new_cache (settings : Settings) : TTLCache :=
  {| ttl := cache_ttl settings; links := ∅ |}.

(** The state the pipeline works on: the cache of the sheets client, and two
    counters of the calls made so far to the remote table and to the
    generation service. *)
Record World := {
  cache : TTLCache;
  remote_fetches : nat;
  llm_calls : nat
}.

(** What the outside does during one [get_people_data] call. *)
Record SheetsEnv := {
  now_contains : Z;      (* timer read by [cache_key in self.cache] *)
  now_getitem : Z;       (* timer read by [self.cache[cache_key]] *)
  now_setitem : Z;       (* timer read by [self.cache[cache_key] = ...] *)
  sheet_values : option (list (list string))
    (* the rows the remote read of the [try] block ends with
       ([_get_sheet()], [worksheet("People")], [people_sheet.get(...)]);
       [None] when one of them raises *)
}.

Definition headers : list string :=
  ["person_id"; "full_name"; "preferred_name"; "school"; "department";
   "email"; "phone"; "locale"; "profile_doc_id"; "profile_text";
   "last_updated"].

(** [person[header] = row[i] if i < len(row) else ""] for every header *)
Definition row_to_person (row : list string) : Person :=
  foldl (fun person ih => <[snd ih := default "" (row !! fst ih)]> person)
        ∅ (zip (seq 0 (length headers)) headers).

Fixpoint parse_rows (values : list (list string)) : list Person :=
  match values with
  | [] => []
  | row :: rest =>
      if (length headers <=? length row)%nat
      then row_to_person row :: parse_rows rest
      else parse_rows rest
  end.

Definition cache_key : string := "people_data".

Definition count_fetch (w : World) : World :=
  {| cache := cache w;
     remote_fetches := S (remote_fetches w);
     llm_calls := llm_calls w |}.

Definition store (w : World) (people_data : list Person) (now : Z) : World :=
  {| cache := cache_setitem (cache w) cache_key people_data now;
     remote_fetches := remote_fetches w;
     llm_calls := llm_calls w |}.

(** [SheetsClient.get_people_data].  [remote_fetches] counts the remote
    reads begun, that is the entries into the [try] block. *)
Definition get_people_data (w : World) (e : SheetsEnv)
  : result (list Person) * World :=
  if cache_contains (cache w) cache_key (now_contains e)
  then (cache_getitem (cache w) cache_key (now_getitem e), w)
  else
    match sheet_values e with
    | None => (Raise, count_fetch w)
    | Some values =>
        match values with
        | [] => (Return [], count_fetch w)
        | _ :: _ =>
            let people_data := parse_rows values in
            (Return people_data,
             store (count_fetch w) people_data (now_setitem e))
        end
    end.

(** The lookup at the head of [get_people_data] finds no live entry. *)
Definition cache_miss (w : World) (e : SheetsEnv) : Prop :=
  cache_contains (cache w) cache_key (now_contains e) = false.

(** [facts.get("person_id")]-style reads that tell a missing key apart are
    written [d !! k]; [build_facts] sets all nine keys. *)
Definition build_facts (person : Person) : gmap string string :=
  <["profile_text" := get person "profile_text"]>
  (<["locale" := get person "locale"]>
  (<["phone" := get person "phone"]>
  (<["email" := get person "email"]>
  (<["department" := get person "department"]>
  (<["school" := get person "school"]>
  (<["preferred_name" := get person "preferred_name"]>
  (<["full_name" := get person "full_name"]>
  (<["person_id" := get person "person_id"]> ∅)))))))).

Definition apology_text : string :=
  "Şu an teknik bir sorun oluştu. Lütfen daha sonra tekrar dener misiniz?".

Definition not_found_with_phone_text : string :=
  "Numaranızla eşleşen kayıt bulamadım; ad-soyad ve okul/bölüm bilgisini paylaşır mısınız?".

Definition not_found_without_phone_text : string :=
  "Size yardımcı olabilmem için ad-soyad ve okul/bölüm bilgisini paylaşır mısınız?".

Definition people_reference (pid : string) : Reference :=
  {| source := "People"; person_id := Some pid |}.

(** [GeminiClient._fallback] *)
Definition _fallback (locale : string) (pid : option string) : ChatResponse :=
  {| answer_text := apology_text;
     intent := "genel";
     confidence := 0%Q;
     references :=
       if opt_truthy pid then [{| source := "People"; person_id := pid |}]
       else [];
     meta := Some (<["fallback" := JBool true]>
                   (<["locale_used" := JStr locale]> ∅)) |}.

(** [create_error_response] *)
Definition create_error_response : ErrorResponse :=
  {| err_answer_text := apology_text;
     err_intent := "genel";
     err_confidence := 0%Q;
     err_references := [] |}.

(** [r.source == "People" and r.person_id == pid] *)
Definition is_people_ref (pid : string) (r : Reference) : bool :=
  String.eqb (source r) "People"
  && match person_id r with
     | Some p => String.eqb p pid
     | None => false
     end.

(** Step 5 of [chat_endpoint]: ensure the People reference. *)
Definition ensure_people_ref (pid : option string) (refs : list Reference)
  : list Reference :=
  if opt_truthy pid then
    if existsb (is_people_ref (default "" pid)) refs then refs
    else refs ++ [people_reference (default "" pid)]
  else refs.

(** [match_method] of step 6. *)
Definition match_method (user_phone user_name : option string) : string :=
  if opt_truthy user_phone then "phone"
  else if opt_truthy user_name then "name"
  else "none".

(** What the outside does during one request: the sheet read, the
    generation call, the request id drawn and the three rounded timings. *)
Record Env := {
  sheets_env : SheetsEnv;
  llm : llm_outcome;
  request_id : string;
  t_sheets : Q;
  t_llm : Q;
  t_total : Q
}.

Definition timing_ms (env : Env) : json :=
  JObj (<["total" := JNum (t_total env)]>
        (<["llm" := JNum (t_llm env)]>
        (<["sheets" := JNum (t_sheets env)]> ∅))).

(** Step 6 of [chat_endpoint]: the enriched metadata. *)
Definition enrich_meta (m : option (gmap string json)) (locale : string)
    (env : Env) (tag : string) : gmap string json :=
  let old := default ∅ m in
  let locale_used :=
    if dict_truthy old then default (JStr locale) (old !! "locale_used")
    else JStr locale in
  <["match" := JStr tag]>
  (<["timing_ms" := timing_ms env]>
  (<["request_id" := JStr (request_id env)]>
  (<["locale_used" := locale_used]> old))).

Definition count_llm_call (w : World) : World :=
  {| cache := cache w;
     remote_fetches := remote_fetches w;
     llm_calls := S (llm_calls w) |}.

(** [Reference.model_validate] on one item of the reference array. *)
Definition validate_reference (item : json) : option Reference :=
  match item with
  | JObj o =>
      match o !! "source" with
      | Some (JStr s) =>
          match o !! "person_id" with
          | None | Some JNull => Some {| source := s; person_id := None |}
          | Some (JStr p) => Some {| source := s; person_id := Some p |}
          | Some _ => None
          end
      | _ => None
      end
  | _ => None
  end.

Fixpoint validate_references (items : list json) : option (list Reference) :=
  match items with
  | [] => Some []
  | item :: rest =>
      match validate_reference item, validate_references rest with
      | Some r, Some rs => Some (r :: rs)
      | _, _ => None
      end
  end.

(** The pydantic conversion to [float] restricted to JSON numbers and
    booleans, for running the pipeline on concrete answers. *)
Definition float_of_json (v : json) : option Q :=
  match v with
  | JNum q => Some q
  | JBool b => Some (if b then 1%Q else 0%Q)
  | _ => None
  end.

(** ** Data for the examples

    A small People table, requests and generated answers on which the
    pipeline is run below. *)

Definition ex_settings : Settings :=
  {| default_locale := "tr-TR"; cache_ttl := 60000 |}.

Definition row_ayse : list string :=
  ["p1"; "Ayse Yilmaz"; "Ayse"; "ITU"; "Computer Engineering";
   "ayse@example.org"; "+90 555 123 45 67"; "tr-TR"; "doc-1";
   "Plays chess."; "2024-01-01"].

Definition row_mehmet : list string :=
  ["p2"; "Mehmet Demir"; "Memo"; "ODTU"; "Physics";
   "mehmet@example.org"; "+90 555 987 65 43"; "tr-TR"; "doc-2";
   "Runs marathons."; "2024-01-02"].

(** A row whose [person_id] cell is empty. *)
Definition row_no_id : list string :=
  [""; "Zeynep Kaya"; "Zeynep"; "Bogazici"; "History";
   "zeynep@example.org"; "+90 555 000 11 22"; "tr-TR"; "doc-3";
   "Paints."; "2024-01-03"].

(** Two rows for the name matcher: a stored name with trailing blanks, and a
    stored name one letter away from it. *)
Definition row_padded : list string :=
  ["p4"; "Ayse Yilmaz    "; "Ayse"; "ITU"; "Mathematics";
   "ayse.y@example.org"; "+90 555 111 22 33"; "tr-TR"; "doc-4";
   ""; "2024-01-04"].

Definition row_near : list string :=
  ["p5"; "Ayse Yilmax"; "Ayse"; "ITU"; "Chemistry";
   "ayse.x@example.org"; "+90 555 444 55 66"; "tr-TR"; "doc-5";
   ""; "2024-01-05"].

Definition ex_world : World :=
  {| cache := new_cache ex_settings; remote_fetches := 0; llm_calls := 0 |}.

Definition ex_sheets_env (values : option (list (list string))) : SheetsEnv :=
  {| now_contains := 1000; now_getitem := 1000; now_setitem := 1200;
     sheet_values := values |}.

(** A later call, [elapsed] timer units after the one above was stored. *)
Definition ex_sheets_env_after (elapsed : Z)
    (values : option (list (list string))) : SheetsEnv :=
  {| now_contains := 1200 + elapsed; now_getitem := 1200 + elapsed;
     now_setitem := 1400 + elapsed; sheet_values := values |}.

Definition ex_env (values : list (list string)) (out : llm_outcome) : Env :=
  {| sheets_env := ex_sheets_env (Some values);
     llm := out;
     request_id := "1a2b3c4d";
     t_sheets := 200; t_llm := 850; t_total := 1060 |}.

Definition ex_request (user_name user_phone : option string) : ChatRequest :=
  {| message := "Merhaba";
     user := Some {| name := user_name; phone := user_phone; locale := None |} |}.

(** The example message holds no self-introduction: the search of
    [extract_name_from_message] finds no name in it. *)
Definition no_name_found (message : string) : option string := None.

Definition ref_json (src pid : string) : json :=
  JObj (<["person_id" := JStr pid]> (<["source" := JStr src]> ∅)).

Definition answer_json (refs : list json) : gmap string json :=
  <["references" := JArr refs]>
  (<["confidence" := JNum 0.9]>
  (<["intent" := JStr "bilgi"]>
  (<["answer_text" := JStr "Merhaba, bolumunuz kayitli."]> ∅))).

(** The generated object supplies no references: the entry is missing or
    falsy ([not data.get("references")]). *)
Definition supplies_no_references (data : gmap string json) : bool :=
  match data !! "references" with
  | Some v => negb (json_truthy v)
  | None => true
  end.

(** The keys [build_facts] sets. *)
Definition fact_keys : list string :=
  ["person_id"; "full_name"; "preferred_name"; "school"; "department";
   "email"; "phone"; "locale"; "profile_text"].

(** [len(row) >= len(headers)] *)
Definition long_enough (row : list string) : bool :=
  (length headers <=? length row)%nat.

(** The [locale_used] entry a generated object brings in its [meta]
    object, if any. *)
Definition own_locale (data : gmap string json) : option json :=
  match data !! "meta" with
  | Some (JObj fields) => fields !! "locale_used"
  | _ => None
  end.

(** ** The connection to the spreadsheet ([_get_client], [_get_sheet])

    [Client] and [Spreadsheet] stand for the gspread objects.  [ConnEnv] is
    what the outside does during one call: the outcome of reading the
    credentials and authorizing, and of [open_by_key]; [None] when it
    raises. *)
Section Connection.
Variables Client Spreadsheet : Type.

Record Connection := {
  _client : option Client;
  _sheet : option Spreadsheet
}.

Record ConnEnv := {
  authorize : option Client;
  open_by_key : Client -> option Spreadsheet
}.

Definition _get_client (c : Connection) (env : ConnEnv)
  : result Client * Connection :=
  match _client c with
  | Some client => (Return client, c)
  | None =>
      match authorize env with
      | Some client =>
          (Return client, {| _client := Some client; _sheet := _sheet c |})
      | None => (Raise, c)
      end
  end.

Definition _get_sheet (c : Connection) (env : ConnEnv)
  : result Spreadsheet * Connection :=
  match _sheet c with
  | Some sheet => (Return sheet, c)
  | None =>
      match _get_client c env with
      | (Return client, c1) =>
          match open_by_key env client with
          | Some sheet =>
              (Return sheet, {| _client := _client c1; _sheet := Some sheet |})
          | None => (Raise, c1)
          end
      | (Raise, c1) => (Raise, c1)
      end
  end.

(** The state after a series of [_get_sheet] calls, one per environment. *)
Fixpoint after_calls (c : Connection) (envs : list ConnEnv) : Connection :=
  match envs with
  | [] => c
  | env :: rest => after_calls (snd (_get_sheet c env)) rest
  end.
End Connection.

Arguments _client {Client Spreadsheet} c.
Arguments _sheet {Client Spreadsheet} c.
Arguments authorize {Client Spreadsheet} c.
Arguments open_by_key {Client Spreadsheet} c client.
Arguments _get_client {Client Spreadsheet} c env.
Arguments _get_sheet {Client Spreadsheet} c env.
Arguments after_calls {Client Spreadsheet} c envs.

(** ** More data for the examples *)

(** A row with fewer cells than headers. *)
Definition row_short : list string := ["p9"; "Kisa Satir"].

(** The example state after a first request has read and stored the table
    (at timer reading 1200, so the entry expires at 61200). *)
Definition ex_world_loaded : World :=
  snd (get_people_data ex_world (ex_sheets_env (Some [row_ayse; row_mehmet]))).

(** A request handled while the entry expires: the cache is tested at
    61199 and read at 61200. *)
Definition ex_env_racing : Env :=
  {| sheets_env := {| now_contains := 61199; now_getitem := 61200;
                      now_setitem := 61300;
                      sheet_values := Some [row_ayse; row_mehmet] |};
     llm := LlmRaises;
     request_id := "5e6f7a8b";
     t_sheets := 1; t_llm := 0; t_total := 1 |}.

(** A request during which the remote read fails. *)
Definition ex_env_failing : Env :=
  {| sheets_env := ex_sheets_env None;
     llm := LlmRaises;
     request_id := "9c0d1e2f";
     t_sheets := 300; t_llm := 0; t_total := 300 |}.

(** A generated answer with a [meta] entry. *)
Definition answer_with_meta (m : json) : gmap string json :=
  <["meta" := m]> (answer_json [ref_json "People" "p1"]).

(** A request with a locale of its own. *)
Definition ex_request_locale (user_phone user_locale : option string)
  : ChatRequest :=
  {| message := "Merhaba";
     user := Some {| name := None; phone := user_phone;
                     locale := user_locale |} |}.

(** A record with the eleven header keys and no other. *)
Definition record_ok (person : Person) : Prop :=
  forall k, is_Some (person !! k) <-> In k headers.

(** Every list the cache holds is a list of such records. *)
Definition cache_ok (w : World) : Prop :=
  forall key value expires,
    links (cache w) !! key = Some (value, expires) -> Forall record_ok value.

Section Pipeline.

(** Python library functions: [str.lower], [str.strip],
    [SequenceMatcher(None, a, b).ratio()]. *)
Variable lower : string -> string.
Variable strip : string -> string.
Variable ratio : string -> string -> Q.

(** [PersonFinder.extract_name_from_message]: the regular-expression
    search over the message; the pipeline only uses its result. *)
Variable extract_name_from_message : string -> option string.

(** pydantic's conversion of a parsed value to a [float] field (numbers
    as they are, booleans and numeric strings converted, the rest
    refused). *)
Variable pydantic_float : json -> option Q.

Variable settings : Settings.

(** *** NameMatcher and PersonFinder *)

Definition _fuzzy_match (text1 text2 : string) (threshold : Q) : bool :=
  if negb (str_truthy text1) || negb (str_truthy text2) then false
  else
    let text1 := strip (lower text1) in
    let text2 := strip (lower text2) in
    Qgeb (ratio text1 text2) threshold.

(** One candidate name of one record: the body of
    [if cand and self._fuzzy_match(name, cand): ...]. *)
Definition consider (name : string) (person : Person) (cand : string)
    (best : option Person * Q) : option Person * Q :=
  if str_truthy cand && _fuzzy_match name cand 0.85%Q then
    let r := ratio (lower name) (lower cand) in
    if Qgtb r (snd best) then (Some person, r) else best
  else best.

(** The body of [for person in self.people_data] in [find_by_name]. *)
Definition name_step (name : string) (best : option Person * Q)
    (person : Person) : option Person * Q :=
  let full_name := get person "full_name" in
  let preferred_name := get person "preferred_name" in
  consider name person preferred_name
    (consider name person full_name best).

Definition find_by_name (people_data : list Person) (name : string)
  : option Person :=
  if negb (str_truthy name) then None
  else fst (foldl (name_step name) (None, 0%Q) people_data).

(** The matcher as the specification words it, to compare with
    [find_by_name]: [ratio] case-folds and trims both inputs; a record's
    score is the better of the two name ratios; the first record with the
    highest score is returned when that score reaches 0.85. *)
Definition spec_ratio (x y : string) : Q :=
  ratio (strip (lower x)) (strip (lower y)).

Definition spec_score (raw_name : string) (person : Person) : Q :=
  let rf := spec_ratio raw_name (get person "full_name") in
  let rp := spec_ratio raw_name (get person "preferred_name") in
  if Qle_bool rf rp then rp else rf.

Definition spec_step (raw_name : string) (best : option (Person * Q))
    (person : Person) : option (Person * Q) :=
  let s := spec_score raw_name person in
  match best with
  | None => Some (person, s)
  | Some (_, m) => if Qgtb s m then Some (person, s) else best
  end.

Definition spec_find_by_name (people_data : list Person) (raw_name : string)
  : option Person :=
  match foldl (spec_step raw_name) None people_data with
  | Some (person, m) => if Qgeb m 0.85%Q then Some person else None
  | None => None
  end.

(** [str.strip] leaves the case-folded string as it is: no blank at
    either end. *)
Definition already_trimmed (s : string) : Prop := strip (lower s) = lower s.

(** Where the two matchers above are compared, the state [find_by_name]
    has reached ([best_match], [best_ratio]) is related to the best record
    and score of the specified matcher: below the threshold nothing is
    kept, from the threshold on the same record is kept with an equal
    ratio. *)
Definition same_best (code : option Person * Q) (spec : option (Person * Q))
  : Prop :=
  match spec with
  | None => code = (None, 0%Q)
  | Some (person, m) =>
      if Qgeb m 0.85%Q then fst code = Some person /\ (snd code == m)%Q
      else code = (None, 0%Q)
  end.

(** [if person: return person] *)
Definition truthy_person (o : option Person) : option Person :=
  match o with
  | Some person => if dict_truthy person then Some person else None
  | None => None
  end.

(** The "then try name match" block of [find_person]. *)
Definition resolve_by_name (people_data : list Person)
    (user_name : option string) : option Person :=
  match user_name with
  | Some n =>
      if str_truthy n then truthy_person (find_by_name people_data n)
      else None
  | None => None
  end.

(** The "first try phone match" block of [find_person]. *)
Definition resolve_by_phone (people_data : list Person)
    (user_phone : option string) : option Person :=
  match user_phone with
  | Some p =>
      if str_truthy p then truthy_person (find_by_phone people_data p)
      else None
  | None => None
  end.

Definition find_person (people_data : list Person)
    (user_phone user_name : option string) : option Person :=
  match resolve_by_phone people_data user_phone with
  | Some person => Some person
  | None => resolve_by_name people_data user_name
  end.

(** *** ResponseReconciler: [app/llm/gemini.py] *)

(** [ChatResponse.model_validate(data)] on a parsed object. *)
Definition model_validate (data : gmap string json) : option ChatResponse :=
  match data !! "answer_text", data !! "intent" with
  | Some (JStr text), Some (JStr i) =>
      match data !! "confidence" ≫= pydantic_float with
      | Some c =>
          if Qle_bool 0%Q c && Qle_bool c 1%Q then
            match
              match data !! "references" with
              | None => Some []
              | Some (JArr items) => validate_references items
              | Some _ => None
              end,
              match data !! "meta" with
              | None | Some JNull => Some None
              | Some (JObj m) => Some (Some m)
              | Some _ => None
              end
            with
            | Some refs, Some m =>
                Some {| answer_text := text; intent := i; confidence := c;
                        references := refs; meta := m |}
            | _, _ => None
            end
          else None
      | None => None
      end
  | _, _ => None
  end.

(** Lines 119-121: with no (or a falsy) [references] entry, one People
    reference is put in. *)
Definition inject_references (facts : gmap string string)
    (data : gmap string json) : gmap string json :=
  match data !! "references" with
  | Some v =>
      if json_truthy v then data
      else <["references" :=
               JArr [JObj (<["person_id" := JStr (get facts "person_id")]>
                           (<["source" := JStr "People"]> ∅))]]> data
  | None =>
      <["references" :=
          JArr [JObj (<["person_id" := JStr (get facts "person_id")]>
                      (<["source" := JStr "People"]> ∅))]]> data
  end.

(** Lines 123-126: [meta = data.get("meta") or {}], then
    [meta.setdefault("locale_used", locale)], which raises on anything but
    a dictionary. *)
Definition enrich_locale (locale : string) (data : gmap string json)
  : result (gmap string json) :=
  let m :=
    match data !! "meta" with
    | Some v => if json_truthy v then v else JObj ∅
    | None => JObj ∅
    end in
  match m with
  | JObj fields =>
      let fields' :=
        match fields !! "locale_used" with
        | Some _ => fields
        | None => <["locale_used" := JStr locale]> fields
        end in
      Return (<["meta" := JObj fields']> data)
  | _ => Raise
  end.

(** The [try] body of [generate_response] once the service has answered;
    [Raise] is any exception, which the [except] clause turns into the
    fallback. *)
Definition parse_answer (facts : gmap string string) (locale : string)
    (out : llm_outcome) : result ChatResponse :=
  match out with
  | LlmRaises => Raise
  | LlmNoText => Return (_fallback locale (facts !! "person_id"))
  | LlmBadJson => Raise
  | LlmJson (JObj data) =>
      match enrich_locale locale (inject_references facts data) with
      | Return data' =>
          match model_validate data' with
          | Some r => Return r
          | None => Raise
          end
      | Raise => Raise
      end
  | LlmJson _ => Raise
  end.

(** The [except Exception] clause around it. *)
Definition answer_of (facts : gmap string string) (locale : string)
    (out : llm_outcome) : ChatResponse :=
  match parse_answer facts locale out with
  | Return r => r
  | Raise => _fallback locale (facts !! "person_id")
  end.

(** The generation step gave nothing usable: the call raised, it gave no
    text, the text is not JSON, or the parsed value fails on the way to a
    validated [ChatResponse]. *)
Definition unusable (facts : gmap string string) (locale : string)
    (out : llm_outcome) : Prop :=
  match out with
  | LlmRaises | LlmNoText | LlmBadJson => True
  | LlmJson _ => parse_answer facts locale out = Raise
  end.

Definition generate_response (w : World) (out : llm_outcome)
    (facts : gmap string string) (locale : string) : ChatResponse * World :=
  (answer_of facts locale out, count_llm_call w).

(** *** Pipeline orchestrator: [app/routes/chat.py] *)

Definition create_not_found_response (user_phone user_name : option string)
  : ChatResponse :=
  {| answer_text :=
       if opt_truthy user_phone then not_found_with_phone_text
       else not_found_without_phone_text;
     intent := "genel";
     confidence := 0.3%Q;
     references := [];
     meta := Some (<["person_not_found" := JBool true]>
                   (<["locale_used" := JStr (default_locale settings)]> ∅)) |}.

(** [request.user.<field> if request.user else None] *)
Definition user_field (request : ChatRequest)
    (field : UserInfo -> option string) : option string :=
  match user request with
  | Some u => field u
  | None => None
  end.

(** The name handed to [find_person]: the request's, or the one found in
    the message. *)
Definition effective_name (request : ChatRequest) : option string :=
  if opt_truthy (user_field request name) then user_field request name
  else extract_name_from_message (message request).

(** [user_locale or facts.get("locale") or settings.default_locale] *)
Definition derive_locale (user_locale : option string)
    (facts : gmap string string) : string :=
  if opt_truthy user_locale then default "" user_locale
  else if opt_truthy (facts !! "locale") then get facts "locale"
  else default_locale settings.

(** The locale of a request resolved to [person]. *)
Definition request_locale (request : ChatRequest) (person : Person)
  : string :=
  derive_locale (user_field request locale) (build_facts person).

(** Steps 3 to 6, entered once a person is found. *)
Definition reconcile (w : World) (env : Env) (request : ChatRequest)
    (person : Person) : ChatResponse * World :=
  let user_phone := user_field request phone in
  let user_name := effective_name request in
  let facts := build_facts person in
  let locale := derive_locale (user_field request locale) facts in
  let '(response, w') := generate_response w (llm env) facts locale in
  ({| answer_text := answer_text response;
      intent := intent response;
      confidence := confidence response;
      references :=
        ensure_people_ref (facts !! "person_id") (references response);
      meta := Some (enrich_meta (meta response) locale env
                      (match_method user_phone user_name)) |},
   w').

Definition chat_endpoint (w : World) (env : Env) (request : ChatRequest)
  : HttpResponse * World :=
  match get_people_data w (sheets_env env) with
  | (Raise, w1) => (Http500 create_error_response, w1)
  | (Return people_data, w1) =>
      let user_phone := user_field request phone in
      let user_name := effective_name request in
      match truthy_person (find_person people_data user_phone user_name) with
      | None => (Http200 (create_not_found_response user_phone user_name), w1)
      | Some person =>
          let '(response, w2) := reconcile w1 env request person in
          (Http200 response, w2)
      end
  end.


(** One of the two names of [person] passes the test that guards an update
    in [find_by_name]. *)
Definition admitted (name : string) (person : Person) : bool :=
  (str_truthy (get person "full_name")
   && _fuzzy_match name (get person "full_name") 0.85%Q)
  || (str_truthy (get person "preferred_name")
      && _fuzzy_match name (get person "preferred_name") 0.85%Q).

(** An empty string in a request field, read as a missing field. *)
Definition blank_to_none (o : option string) : option string :=
  if opt_truthy o then o else None.

Definition without_blanks (request : ChatRequest) : ChatRequest :=
  {| message := message request;
     user :=
       match user request with
       | Some u =>
           if opt_truthy (name u) || opt_truthy (phone u)
              || opt_truthy (locale u)
           then Some {| name := blank_to_none (name u);
                        phone := blank_to_none (phone u);
                        locale := blank_to_none (locale u) |}
           else None
       | None => None
       end |}.

(** The keys step 6 of [chat_endpoint] sets. *)
Definition enriched_keys : list string :=
  ["locale_used"; "request_id"; "timing_ms"; "match"].
(** ** Properties of the phone normalizer *)

Lemma strip_non_phone_idem s :
  strip_non_phone (strip_non_phone s) = strip_non_phone s.
Proof.
  induction s as [|c t IH]; simpl; [reflexivity|].
  destruct (digit_or_plus c) eqn:E; simpl; [|exact IH].
  rewrite E, IH. reflexivity.
Qed.

Lemma strip_non_phone_length s :
  String.length (strip_non_phone s) <= String.length s.
Proof.
  induction s as [|c t IH]; simpl; [lia|].
  destruct (digit_or_plus c); simpl; lia.
Qed.

(** Dropping the first character of a cleaned string leaves a cleaned string. *)
Lemma strip_non_phone_tail c s :
  strip_non_phone (String c s) = String c s -> strip_non_phone s = s.
Proof.
  simpl. destruct (digit_or_plus c); [congruence|].
  intros H. pose proof (strip_non_phone_length s) as Hlen.
  rewrite H in Hlen. simpl in Hlen. lia.
Qed.

Lemma normalize_plus_prefixed s :
  strip_non_phone s = s -> _normalize_phone (String "+" s) = String "+" s.
Proof.
  intros Hs. unfold _normalize_phone. simpl. rewrite Hs. reflexivity.
Qed.

(** Every non-empty input is sent to a plus sign followed by cleaned text. *)
Lemma normalize_phone_shape c t :
  exists s, _normalize_phone (String c t) = String "+" s /\ strip_non_phone s = s.
Proof.
  unfold _normalize_phone.
  cbv beta iota delta [str_truthy negb].
  set (n := strip_non_phone (String c t)).
  assert (Hn : strip_non_phone n = n) by apply strip_non_phone_idem.
  clearbody n.
  destruct (startswith n "+") eqn:E1.
  - destruct n as [|d u]; [discriminate|].
    simpl in E1. rewrite andb_true_r in E1.
    apply Ascii.eqb_eq in E1 as ->.
    exists u. split; [reflexivity|]. eapply strip_non_phone_tail, Hn.
  - destruct (startswith n "90") eqn:E2; [exists n; split; [reflexivity|exact Hn]|].
    destruct (startswith n "0") eqn:E3; [|exists n; split; [reflexivity|exact Hn]].
    exists (String "9" (String "0" (drop_first n))). split; [reflexivity|].
    destruct n as [|d u]; [discriminate|].
    simpl. f_equal. f_equal. eapply strip_non_phone_tail, Hn.
Qed.

(** C8. Phone normalization is idempotent on every input string. *)
Theorem normalize_phone_idempotent (x : string) :
  _normalize_phone (_normalize_phone x) = _normalize_phone x.
Proof.
  destruct x as [|c t]; [reflexivity|].
  destruct (normalize_phone_shape c t) as (s & -> & Hs).
  apply normalize_plus_prefixed, Hs.
Qed.

(** ** Digit-free phone strings *)

Lemma strip_non_phone_no_digit s :
  no_digit (strip_non_phone s) = no_digit s.
Proof.
  unfold no_digit. induction s as [|c t IH]; simpl; [reflexivity|].
  unfold digit_or_plus. destruct (is_digit c) eqn:Ed; simpl.
  - rewrite Ed. reflexivity.
  - destruct (is_plus c) eqn:Ep; simpl; [rewrite Ed|]; exact IH.
Qed.

Lemma strip_non_phone_count_plus s :
  count_plus (strip_non_phone s) = count_plus s.
Proof.
  induction s as [|c t IH]; simpl; [reflexivity|].
  unfold digit_or_plus. destruct (is_plus c) eqn:Ep.
  - rewrite orb_true_r. simpl. rewrite Ep, IH. reflexivity.
  - rewrite orb_false_r. destruct (is_digit c); simpl; [rewrite Ep|]; exact IH.
Qed.

Lemma plus_is_not_digit c : is_plus c = true -> is_digit c = false.
Proof. unfold is_plus. intros ->%Ascii.eqb_eq. reflexivity. Qed.

(** A cleaned string without digits is a run of plus signs. *)
Lemma strip_non_phone_pluses s :
  no_digit s = true -> strip_non_phone s = pluses (count_plus s).
Proof.
  unfold no_digit. induction s as [|c t IH]; simpl; [reflexivity|].
  intros [Hc Ht]%andb_true_iff. apply negb_true_iff in Hc.
  unfold digit_or_plus. rewrite Hc. simpl.
  destruct (is_plus c) eqn:Ep; simpl; [|exact (IH Ht)].
  apply Ascii.eqb_eq in Ep as ->. rewrite (IH Ht). reflexivity.
Qed.

Lemma no_plus_count s : no_plus s = true -> count_plus s = 0%nat.
Proof.
  unfold no_plus. induction s as [|c t IH]; simpl; [reflexivity|].
  intros [Hc Ht]%andb_true_iff. apply negb_true_iff in Hc.
  rewrite Hc, (IH Ht). reflexivity.
Qed.

(** The strings normalized to a lone plus sign. *)
Lemma normalize_phone_is_plus s :
  _normalize_phone s = "+" <-> nonempty_at_most_one_plus s = true.
Proof.
  unfold nonempty_at_most_one_plus.
  destruct s as [|c t]; [simpl; split; discriminate|].
  set (x := String c t). change (str_truthy x) with true.
  rewrite andb_true_l, andb_true_iff, Nat.leb_le.
  unfold _normalize_phone. change (negb (str_truthy x)) with false.
  cbv iota zeta.
  rewrite <- (strip_non_phone_no_digit x), <- (strip_non_phone_count_plus x).
  pose proof (strip_non_phone_idem x) as Hn.
  generalize dependent (strip_non_phone x). clear x c t. intros n Hn.
  split.
  - destruct (startswith n "+") eqn:E1; [intros ->; split; [reflexivity|simpl; lia]|].
    destruct (startswith n "90") eqn:E2.
    { change ("+" +:+ n) with (String "+" n). intros [= ->]. discriminate. }
    destruct (startswith n "0") eqn:E3.
    { change ("+90" +:+ drop_first n)
        with (String "+" (String "9" (String "0" (drop_first n)))).
      discriminate. }
    change ("+" +:+ n) with (String "+" n). intros [= ->].
    split; [reflexivity|simpl; lia].
  - intros [Hd Hp]. rewrite (strip_non_phone_pluses n Hd) in Hn.
    destruct (count_plus n) as [|[|k]]; [| |lia];
      simpl in Hn; rewrite <- Hn; reflexivity.
Qed.

Lemma scan_phone_find q people :
  scan_phone q people
  = List.find (fun person => String.eqb (_normalize_phone (get person "phone")) q)
              people.
Proof.
  induction people as [|p rest IH]; simpl; [reflexivity|].
  rewrite IH. reflexivity.
Qed.

Lemma find_ext {A} (f g : A -> bool) l :
  (forall x, f x = g x) -> List.find f l = List.find g l.
Proof.
  intros E. induction l as [|x l IH]; simpl; [reflexivity|].
  rewrite E, IH. reflexivity.
Qed.

(** C9 (as amended). A non-empty phone string without digit and without plus
    sign is normalized to ["+"]; so are all such strings alike, and a lookup
    with one of them returns the first record whose stored phone is
    non-empty, holds no digit and holds at most one plus sign. *)
Theorem symbols_only_phone_lookup (q : string) :
  str_truthy q = true -> no_digit q = true -> no_plus q = true ->
  _normalize_phone q = "+"
  /\ (forall q', str_truthy q' = true -> no_digit q' = true ->
                 no_plus q' = true -> _normalize_phone q' = _normalize_phone q)
  /\ (forall people,
        find_by_phone people q
        = first_with_phone nonempty_at_most_one_plus people).
Proof.
  assert (Hplus : forall s, str_truthy s = true -> no_digit s = true ->
                            no_plus s = true -> _normalize_phone s = "+").
  { intros s Hs Hd Hp. apply normalize_phone_is_plus.
    unfold nonempty_at_most_one_plus.
    rewrite Hs, Hd, (no_plus_count s Hp). reflexivity. }
  intros Hq Hd Hp. split; [auto|]. split.
  - intros q' ? ? ?. rewrite (Hplus q), (Hplus q'); auto.
  - intros people. unfold find_by_phone, first_with_phone.
    rewrite Hq, (Hplus q Hq Hd Hp), scan_phone_find. simpl.
    apply find_ext. intros person.
    destruct (nonempty_at_most_one_plus (get person "phone")) eqn:E.
    + apply normalize_phone_is_plus in E. rewrite E. reflexivity.
    + apply String.eqb_neq. intros H%normalize_phone_is_plus. congruence.
Qed.

(** ** Resolution: phone first, then name *)

Lemma normalize_phone_nonempty p :
  str_truthy p = true -> _normalize_phone p <> "".
Proof.
  destruct p as [|c t]; [discriminate|]. intros _.
  destruct (normalize_phone_shape c t) as (s & -> & _). discriminate.
Qed.

Lemma scan_phone_first q people A :
  scan_phone q people = Some A ->
  exists before after,
    people = (before ++ A :: after)%list
    /\ _normalize_phone (get A "phone") = q
    /\ (forall r, In r before -> _normalize_phone (get r "phone") <> q).
Proof.
  induction people as [|p rest IH]; simpl; [discriminate|].
  destruct (String.eqb_spec (_normalize_phone (get p "phone")) q) as [E|E].
  - intros [= ->]. exists [], rest. repeat split; [exact E|]. intros r [].
  - intros (before & after & -> & HA & Hb)%IH.
    exists (p :: before), after. repeat split; [exact HA|].
    intros r [<-|Hr]; [exact E|exact (Hb r Hr)].
Qed.

Lemma scan_phone_none q people :
  (forall r, In r people -> _normalize_phone (get r "phone") <> q) ->
  scan_phone q people = None.
Proof.
  induction people as [|p rest IH]; simpl; [reflexivity|]. intros H.
  destruct (String.eqb_spec (_normalize_phone (get p "phone")) q) as [E|E].
  - destruct (H p); auto.
  - apply IH. intros r Hr. apply H. auto.
Qed.

Lemma scan_phone_some q people r :
  In r people -> _normalize_phone (get r "phone") = q ->
  exists A, scan_phone q people = Some A.
Proof.
  intros Hin Hr. destruct (scan_phone q people) as [A|] eqn:E; [eauto|].
  exfalso. revert E. induction people as [|p rest IH]; simpl; [destruct Hin|].
  destruct (String.eqb_spec (_normalize_phone (get p "phone")) q) as [E|E];
    [discriminate|].
  destruct Hin as [->|Hin]; [contradiction|auto].
Qed.

(** A record found by phone holds a phone, so it is a non-empty dictionary. *)
Lemma find_by_phone_truthy people p A :
  find_by_phone people p = Some A -> dict_truthy A = true.
Proof.
  unfold find_by_phone. destruct (str_truthy p) eqn:Hp; [simpl|discriminate].
  intros (_ & _ & _ & HA & _)%scan_phone_first.
  unfold dict_truthy. apply bool_decide_eq_true. intros ->.
  apply (normalize_phone_nonempty p Hp). rewrite <- HA. reflexivity.
Qed.

Lemma truthy_person_some o person :
  truthy_person o = Some person -> o = Some person /\ dict_truthy person = true.
Proof.
  destruct o as [x|]; simpl; [|discriminate].
  destruct (dict_truthy x) eqn:E; [|discriminate]. intros [= <-]. auto.
Qed.

Lemma resolve_by_phone_truthy people user_phone person :
  resolve_by_phone people user_phone = Some person -> dict_truthy person = true.
Proof.
  unfold resolve_by_phone. destruct user_phone as [p|]; [|discriminate].
  destruct (str_truthy p); [|discriminate].
  intros [_ H]%truthy_person_some. exact H.
Qed.

Lemma resolve_by_name_truthy people user_name person :
  resolve_by_name people user_name = Some person -> dict_truthy person = true.
Proof.
  unfold resolve_by_name. destruct user_name as [n|]; [|discriminate].
  destruct (str_truthy n); [|discriminate].
  intros [_ H]%truthy_person_some. exact H.
Qed.

Lemma find_person_truthy people user_phone user_name person :
  find_person people user_phone user_name = Some person ->
  dict_truthy person = true.
Proof.
  unfold find_person.
  destruct (resolve_by_phone people user_phone) as [x|] eqn:E.
  - intros [= <-]. eapply resolve_by_phone_truthy, E.
  - apply resolve_by_name_truthy.
Qed.

(** C6. A supplied phone whose normalized form equals that of some record's
    stored phone decides the resolution: the first such record is returned
    whatever the name is.  The name is looked at only when no phone is
    supplied or when no record matches the phone. *)
Theorem find_person_phone_priority
    (people : list Person) (user_phone user_name : option string) :
  (forall p, user_phone = Some p -> str_truthy p = true ->
     (exists r, In r people
                /\ _normalize_phone (get r "phone") = _normalize_phone p) ->
     exists before A after,
       people = (before ++ A :: after)%list
       /\ _normalize_phone (get A "phone") = _normalize_phone p
       /\ (forall r, In r before ->
             _normalize_phone (get r "phone") <> _normalize_phone p)
       /\ find_by_phone people p = Some A
       /\ forall any_name, find_person people user_phone any_name = Some A)
  /\ (opt_truthy user_phone = false
      \/ (exists p, user_phone = Some p
            /\ forall r, In r people ->
                 _normalize_phone (get r "phone") <> _normalize_phone p) ->
      find_person people user_phone user_name
      = resolve_by_name people user_name).
Proof.
  split.
  - intros p -> Hp (r & Hin & Hr).
    destruct (scan_phone_some _ _ _ Hin Hr) as [A HA].
    assert (Hfind : find_by_phone people p = Some A).
    { unfold find_by_phone. rewrite Hp. exact HA. }
    destruct (scan_phone_first _ _ _ HA) as (before & after & Hsplit & HAp & Hb).
    exists before, A, after. repeat split; auto.
    intros any_name. unfold find_person, resolve_by_phone.
    rewrite Hp, Hfind. simpl. rewrite (find_by_phone_truthy _ _ _ Hfind).
    reflexivity.
  - unfold find_person, resolve_by_phone.
    intros [Hno|(p & -> & Hnone)].
    + destruct user_phone as [p|]; [|reflexivity].
      simpl in Hno. rewrite Hno. reflexivity.
    + destruct (str_truthy p) eqn:Hp; [|reflexivity].
      unfold find_by_phone. rewrite Hp. simpl.
      rewrite (scan_phone_none _ _ Hnone). reflexivity.
Qed.

(** ** The orchestrator *)

Lemma get_people_data_llm_calls w e :
  llm_calls (snd (get_people_data w e)) = llm_calls w.
Proof.
  unfold get_people_data.
  destruct (cache_contains _ _ _); [reflexivity|].
  destruct (sheet_values e) as [[|row rows]|]; reflexivity.
Qed.

Lemma chat_endpoint_not_found w env request people w1 :
  get_people_data w (sheets_env env) = (Return people, w1) ->
  find_person people (user_field request phone) (effective_name request) = None ->
  chat_endpoint w env request
  = (Http200 (create_not_found_response (user_field request phone)
                                        (effective_name request)), w1).
Proof.
  intros Hget Hfind. unfold chat_endpoint. rewrite Hget, Hfind. reflexivity.
Qed.

Lemma chat_endpoint_found w env request people w1 person :
  get_people_data w (sheets_env env) = (Return people, w1) ->
  find_person people (user_field request phone) (effective_name request)
  = Some person ->
  chat_endpoint w env request
  = (Http200 (fst (reconcile w1 env request person)),
     snd (reconcile w1 env request person)).
Proof.
  intros Hget Hfind. unfold chat_endpoint. rewrite Hget, Hfind. simpl.
  rewrite (find_person_truthy _ _ _ _ Hfind). reflexivity.
Qed.

Lemma not_found_texts_differ :
  not_found_with_phone_text <> not_found_without_phone_text.
Proof. discriminate. Qed.

(** C7. When resolution finds no person the request ends with the fixed
    guidance response: status 200, confidence 0.3, one of two fixed texts
    chosen by whether a phone was supplied, and no call to the generation
    service. *)
Theorem not_found_short_circuits
    (w : World) (env : Env) (request : ChatRequest)
    (people : list Person) (w1 : World) :
  get_people_data w (sheets_env env) = (Return people, w1) ->
  find_person people (user_field request phone) (effective_name request) = None ->
  exists r,
    chat_endpoint w env request = (Http200 r, w1)
    /\ llm_calls w1 = llm_calls w
    /\ confidence r = 0.3%Q
    /\ answer_text r
       = (if opt_truthy (user_field request phone)
          then not_found_with_phone_text
          else not_found_without_phone_text)
    /\ not_found_with_phone_text <> not_found_without_phone_text
    /\ references r = [].
Proof.
  intros Hget Hfind. eexists. split; [eapply chat_endpoint_not_found; eauto|].
  split; [|repeat split; exact not_found_texts_differ].
  pose proof (get_people_data_llm_calls w (sheets_env env)) as H.
  rewrite Hget in H. exact H.
Qed.

Lemma reconcile_meta w env request person :
  meta (fst (reconcile w env request person))
  = Some (enrich_meta
            (meta (answer_of (build_facts person)
                     (derive_locale (user_field request locale)
                                    (build_facts person))
                     (llm env)))
            (derive_locale (user_field request locale) (build_facts person))
            env
            (match_method (user_field request phone) (effective_name request))).
Proof. reflexivity. Qed.

Lemma enrich_meta_match m loc env tag :
  enrich_meta m loc env tag !! "match" = Some (JStr tag).
Proof. unfold enrich_meta. apply lookup_insert_eq. Qed.

(** C10 (as amended). On every request for which a person is resolved, the
    [match] entry of the response metadata tells which identity input was
    supplied: ["phone"] whenever a non-empty phone came with the request,
    also when the person was found by name, and ["name"] otherwise, a name
    being then available. *)
Theorem match_tag_records_supplied_inputs
    (w : World) (env : Env) (request : ChatRequest)
    (people : list Person) (w1 : World) (person : Person) :
  get_people_data w (sheets_env env) = (Return people, w1) ->
  find_person people (user_field request phone) (effective_name request)
  = Some person ->
  exists r w2 m,
    chat_endpoint w env request = (Http200 r, w2)
    /\ meta r = Some m
    /\ m !! "match"
       = Some (JStr (match_method (user_field request phone)
                                  (effective_name request)))
    /\ (opt_truthy (user_field request phone) = true ->
        m !! "match" = Some (JStr "phone"))
    /\ (opt_truthy (user_field request phone) = false ->
        opt_truthy (effective_name request) = true
        /\ m !! "match" = Some (JStr "name")).
Proof.
  intros Hget Hfind. eexists _, _, _.
  split; [eapply chat_endpoint_found; eauto|].
  split; [apply reconcile_meta|].
  rewrite enrich_meta_match. split; [reflexivity|]. unfold match_method. split.
  - intros ->. reflexivity.
  - intros Hno. rewrite Hno.
    assert (Hname : opt_truthy (effective_name request) = true).
    { revert Hfind. unfold find_person, resolve_by_phone, resolve_by_name.
      destruct (user_field request phone) as [p|]; simpl in Hno;
        [rewrite Hno|];
        (destruct (effective_name request) as [n|]; [|discriminate];
         simpl; destruct (str_truthy n); [reflexivity|discriminate]). }
    rewrite Hname. auto.
Qed.

(** ** Reconciliation of the generated answer *)

Lemma build_facts_person_id person :
  build_facts person !! "person_id" = Some (get person "person_id").
Proof. reflexivity. Qed.

Lemma reconcile_references w env request person :
  references (fst (reconcile w env request person))
  = ensure_people_ref (Some (get person "person_id"))
      (references (answer_of (build_facts person)
                     (derive_locale (user_field request locale)
                                    (build_facts person))
                     (llm env))).
Proof. reflexivity. Qed.

Lemma is_people_ref_eq pid r :
  is_people_ref pid r = true <-> r = people_reference pid.
Proof.
  unfold is_people_ref, people_reference. destruct r as [s [p|]]; simpl.
  - rewrite andb_true_iff, !String.eqb_eq. split.
    + intros [-> ->]. reflexivity.
    + intros [= -> ->]. auto.
  - rewrite andb_false_r. split; discriminate.
Qed.

(** Step 5 only ever appends, and appends at most the People reference. *)
Lemma ensure_people_ref_app pid refs :
  ensure_people_ref (Some pid) refs
  = (refs ++ if str_truthy pid && negb (existsb (is_people_ref pid) refs)
             then [people_reference pid] else [])%list.
Proof.
  unfold ensure_people_ref. simpl.
  destruct (str_truthy pid); simpl; [|symmetry; apply app_nil_r].
  destruct (existsb (is_people_ref pid) refs); simpl;
    [symmetry; apply app_nil_r|reflexivity].
Qed.

Lemma ensure_people_ref_In pid refs :
  str_truthy pid = true ->
  In (people_reference pid) (ensure_people_ref (Some pid) refs).
Proof.
  intros Hpid. unfold ensure_people_ref. simpl. rewrite Hpid.
  destruct (existsb (is_people_ref pid) refs) eqn:E.
  - apply existsb_exists in E as (r & Hin & Hr).
    apply is_people_ref_eq in Hr as ->. exact Hin.
  - apply in_or_app. right. left. reflexivity.
Qed.

Lemma ensure_people_ref_single pid :
  ensure_people_ref (Some pid) [people_reference pid] = [people_reference pid].
Proof.
  rewrite ensure_people_ref_app. cbn [existsb].
  rewrite (proj2 (is_people_ref_eq pid (people_reference pid)) eq_refl).
  rewrite andb_false_r. reflexivity.
Qed.

Lemma validate_references_Forall2 items refs :
  validate_references items = Some refs ->
  Forall2 (fun item r => validate_reference item = Some r) items refs.
Proof.
  revert refs. induction items as [|item rest IH]; simpl; intros refs.
  - intros [= <-]. constructor.
  - destruct (validate_reference item) as [r|] eqn:E; [|discriminate].
    destruct (validate_references rest) as [rs|]; [|discriminate].
    intros [= <-]. constructor; auto.
Qed.

(** What a validated response holds as references. *)
Lemma model_validate_references data r :
  model_validate data = Some r ->
  match data !! "references" with
  | None => references r = []
  | Some (JArr items) => validate_references items = Some (references r)
  | Some _ => False
  end.
Proof.
  unfold model_validate. intros H.
  repeat case_match; simplify_eq; simpl; congruence.
Qed.

Lemma enrich_locale_other locale data data' k :
  enrich_locale locale data = Return data' -> k <> "meta" ->
  data' !! k = data !! k.
Proof.
  unfold enrich_locale. intros H Hk.
  repeat case_match; simplify_eq; apply lookup_insert_ne; congruence.
Qed.

Lemma parse_answer_return facts locale out r :
  parse_answer facts locale out = Return r ->
  out = LlmNoText /\ r = _fallback locale (facts !! "person_id")
  \/ exists data data',
       out = LlmJson (JObj data)
       /\ enrich_locale locale (inject_references facts data) = Return data'
       /\ model_validate data' = Some r.
Proof.
  unfold parse_answer. intros H.
  repeat case_match; simplify_eq; eauto 10.
Qed.

Lemma inject_references_kept facts data items :
  data !! "references" = Some (JArr items) -> items <> [] ->
  inject_references facts data = data.
Proof.
  unfold inject_references. intros -> Hne.
  destruct items; [contradiction|reflexivity].
Qed.

Lemma inject_references_added facts data :
  supplies_no_references data = true ->
  inject_references facts data !! "references"
  = Some (JArr [JObj (<["person_id" := JStr (get facts "person_id")]>
                      (<["source" := JStr "People"]> ∅))]).
Proof.
  unfold supplies_no_references, inject_references.
  destruct (data !! "references") as [v|]; [|intros _; apply lookup_insert_eq].
  intros ->%negb_true_iff. apply lookup_insert_eq.
Qed.

Lemma fallback_references locale pid :
  references (_fallback locale (Some pid))
  = if str_truthy pid then [people_reference pid] else [].
Proof. reflexivity. Qed.

Lemma answer_of_unusable facts locale out :
  unusable facts locale out ->
  answer_of facts locale out = _fallback locale (facts !! "person_id").
Proof.
  unfold unusable, answer_of. destruct out; try reflexivity.
  intros ->. reflexivity.
Qed.

(** C1 (as amended). On every request for which a person with a non-empty
    [person_id] is resolved, the final reference list holds the People
    reference of that person, whatever the generation step gave.  For a
    resolved record of any [person_id], the empty one included, a generated
    answer that validates and supplies no references ends with exactly that
    People reference. *)
Theorem resolved_person_is_referenced
    (w : World) (env : Env) (request : ChatRequest)
    (people : list Person) (w1 : World) (person : Person) :
  get_people_data w (sheets_env env) = (Return people, w1) ->
  find_person people (user_field request phone) (effective_name request)
  = Some person ->
  exists r w2,
    chat_endpoint w env request = (Http200 r, w2)
    /\ (str_truthy (get person "person_id") = true ->
        In (people_reference (get person "person_id")) (references r))
    /\ (forall data r0,
          llm env = LlmJson (JObj data) ->
          supplies_no_references data = true ->
          parse_answer (build_facts person) (request_locale request person)
                       (llm env) = Return r0 ->
          references r = [people_reference (get person "person_id")]).
Proof.
  intros Hget Hfind. eexists _, _.
  split; [eapply chat_endpoint_found; eauto|].
  rewrite reconcile_references. split.
  - apply ensure_people_ref_In.
  - intros data r0 Hllm Hnone Hparse.
    fold (request_locale request person). unfold answer_of. rewrite Hparse.
    apply parse_answer_return in Hparse
      as [[Hno _]|(data0 & data' & Hout & Henrich & Hvalid)]; [congruence|].
    assert (data0 = data) as -> by congruence.
    apply model_validate_references in Hvalid.
    rewrite (enrich_locale_other _ _ _ "references" Henrich) in Hvalid
      by discriminate.
    rewrite (inject_references_added _ _ Hnone) in Hvalid.
    injection Hvalid as <-. apply ensure_people_ref_single.
Qed.

(** C2 (as amended). On the generation-success path the final reference
    list is the generated list, item by item and in its order, duplicates
    kept, followed by the People reference of the resolved person when that
    person's id is non-empty and the generated list lacks it; nothing else
    is added, removed or moved. *)
Theorem reconcile_keeps_generated_references
    (w : World) (env : Env) (request : ChatRequest)
    (people : list Person) (w1 : World) (person : Person)
    (data : gmap string json) (items : list json) (r0 : ChatResponse) :
  get_people_data w (sheets_env env) = (Return people, w1) ->
  find_person people (user_field request phone) (effective_name request)
  = Some person ->
  llm env = LlmJson (JObj data) ->
  data !! "references" = Some (JArr items) ->
  items <> [] ->
  parse_answer (build_facts person) (request_locale request person) (llm env)
  = Return r0 ->
  exists r w2,
    chat_endpoint w env request = (Http200 r, w2)
    /\ Forall2 (fun item ref => validate_reference item = Some ref)
               items (references r0)
    /\ references r
       = (references r0
          ++ if str_truthy (get person "person_id")
                && negb (existsb (is_people_ref (get person "person_id"))
                                 (references r0))
             then [people_reference (get person "person_id")]
             else [])%list.
Proof.
  intros Hget Hfind Hllm Hrefs Hne Hparse. eexists _, _.
  split; [eapply chat_endpoint_found; eauto|].
  rewrite reconcile_references. fold (request_locale request person).
  unfold answer_of. rewrite Hparse. split; [|apply ensure_people_ref_app].
  apply parse_answer_return in Hparse
    as [[Hno _]|(data0 & data' & Hout & Henrich & Hvalid)]; [congruence|].
  assert (data0 = data) as -> by congruence.
  apply model_validate_references in Hvalid.
  rewrite (enrich_locale_other _ _ _ "references" Henrich) in Hvalid
    by discriminate.
  rewrite (inject_references_kept _ _ _ Hrefs Hne), Hrefs in Hvalid.
  apply validate_references_Forall2, Hvalid.
Qed.

Lemma inject_references_other facts data k :
  k <> "references" -> inject_references facts data !! k = data !! k.
Proof.
  intros Hk. unfold inject_references.
  destruct (data !! "references") as [v|]; [destruct (json_truthy v)|];
    try reflexivity; apply lookup_insert_ne; congruence.
Qed.

(** Two ways for a parsed answer to be unusable: it is not an object, or its
    [answer_text] is missing or not a string. *)
Lemma schema_invalid_is_unusable facts locale :
  (forall d, (forall data, d <> JObj data) -> unusable facts locale (LlmJson d))
  /\ (forall data, (forall s, data !! "answer_text" <> Some (JStr s)) ->
                   unusable facts locale (LlmJson (JObj data))).
Proof.
  split.
  - intros d Hd. unfold unusable, parse_answer.
    destruct d; try reflexivity. destruct (Hd fields eq_refl).
  - intros data Htext. unfold unusable, parse_answer.
    destruct (enrich_locale locale (inject_references facts data))
      as [data'|] eqn:E; [|reflexivity].
    assert (Hsame : data' !! "answer_text" = data !! "answer_text").
    { rewrite (enrich_locale_other _ _ _ "answer_text" E) by discriminate.
      apply inject_references_other. discriminate. }
    unfold model_validate. rewrite Hsame.
    destruct (data !! "answer_text") as [[]|] eqn:Et; try reflexivity.
    destruct (Htext s eq_refl).
Qed.

Lemma fallback_meta locale pid :
  meta (_fallback locale pid)
  = Some (<["fallback" := JBool true]> (<["locale_used" := JStr locale]> ∅)).
Proof. reflexivity. Qed.

Lemma enrich_meta_other m loc env tag k :
  k <> "match" -> k <> "timing_ms" -> k <> "request_id" ->
  k <> "locale_used" ->
  enrich_meta (Some m) loc env tag !! k = m !! k.
Proof.
  intros H1 H2 H3 H4. unfold enrich_meta.
  rewrite !lookup_insert_ne by congruence. reflexivity.
Qed.

Lemma enrich_meta_locale_used m loc env tag v :
  m !! "locale_used" = Some v ->
  enrich_meta (Some m) loc env tag !! "locale_used" = Some v.
Proof.
  intros Hv. unfold enrich_meta.
  rewrite !lookup_insert_ne by discriminate. rewrite lookup_insert_eq.
  assert (Hm : dict_truthy (default ∅ (Some m)) = true).
  { apply bool_decide_eq_true. intros E. change (m = ∅) in E.
    rewrite E, lookup_empty in Hv. discriminate. }
  rewrite Hm. change (default ∅ (Some m)) with m. rewrite Hv. reflexivity.
Qed.

Lemma enrich_meta_fallback locale env tag pid :
  enrich_meta (meta (_fallback locale pid)) locale env tag !! "fallback"
  = Some (JBool true)
  /\ enrich_meta (meta (_fallback locale pid)) locale env tag !! "locale_used"
     = Some (JStr locale).
Proof.
  rewrite fallback_meta. split.
  - rewrite enrich_meta_other by discriminate. apply lookup_insert_eq.
  - apply enrich_meta_locale_used.
    rewrite lookup_insert_ne by discriminate. apply lookup_insert_eq.
Qed.

(** C3 (as amended). Whenever the generation step gives nothing usable, the
    request still ends with status 200 and the fallback answer: the fixed
    apology, intent ["genel"], confidence 0.0, the single People reference
    of the resolved person when its id is non-empty and no reference
    otherwise, and metadata with [fallback] set and the locale used. *)
Theorem generation_failure_yields_fallback
    (w : World) (env : Env) (request : ChatRequest)
    (people : list Person) (w1 : World) (person : Person) :
  get_people_data w (sheets_env env) = (Return people, w1) ->
  find_person people (user_field request phone) (effective_name request)
  = Some person ->
  unusable (build_facts person) (request_locale request person) (llm env) ->
  exists r w2 m,
    chat_endpoint w env request = (Http200 r, w2)
    /\ answer_text r = apology_text
    /\ intent r = "genel"
    /\ confidence r = 0%Q
    /\ references r
       = (if str_truthy (get person "person_id")
          then [people_reference (get person "person_id")] else [])
    /\ meta r = Some m
    /\ m !! "fallback" = Some (JBool true)
    /\ m !! "locale_used" = Some (JStr (request_locale request person)).
Proof.
  intros Hget Hfind Hbad. eexists _, _, _.
  split; [eapply chat_endpoint_found; eauto|].
  pose proof (answer_of_unusable _ _ _ Hbad) as Hans.
  fold (request_locale request person).
  rewrite reconcile_meta, reconcile_references.
  fold (request_locale request person). rewrite Hans.
  assert (Hrefs : forall w0, answer_text (fst (reconcile w0 env request person))
                             = apology_text
                    /\ intent (fst (reconcile w0 env request person)) = "genel"
                    /\ confidence (fst (reconcile w0 env request person)) = 0%Q).
  { intros w0. unfold reconcile, generate_response.
    fold (request_locale request person). rewrite Hans. auto. }
  destruct (Hrefs w1) as (-> & -> & ->).
  repeat (split; [reflexivity|]).
  split; [|split; [reflexivity|apply enrich_meta_fallback]].
  rewrite build_facts_person_id, fallback_references.
  destruct (str_truthy (get person "person_id")) eqn:E.
  - apply ensure_people_ref_single.
  - rewrite ensure_people_ref_app, E. reflexivity.
Qed.

(** ** The table cache *)

(** C4 (as amended). A lookup that finds no entry (the first call) or only
    an expired one is a miss, and every miss begins exactly one remote read.
    A read that yields at least one row is parsed, stored with a fresh
    expiry time and returned; a read that yields no row returns the empty
    list and stores nothing; a read that fails raises and stores nothing.
    A call within the life of the stored entry begins no remote read and
    returns the stored list. *)
Theorem table_cache_behaviour (w : World) (e : SheetsEnv) :
  (links (cache w) !! cache_key = None -> cache_miss w e)
  /\ (forall value expires,
        links (cache w) !! cache_key = Some (value, expires) ->
        (expires <= now_contains e)%Z -> cache_miss w e)
  /\ (cache_miss w e ->
      remote_fetches (snd (get_people_data w e)) = S (remote_fetches w))
  /\ (cache_miss w e ->
      forall row rows, sheet_values e = Some (row :: rows) ->
        fst (get_people_data w e) = Return (parse_rows (row :: rows))
        /\ links (cache (snd (get_people_data w e))) !! cache_key
           = Some (parse_rows (row :: rows), (now_setitem e + ttl (cache w))%Z))
  /\ (cache_miss w e -> sheet_values e = Some [] ->
      fst (get_people_data w e) = Return []
      /\ cache (snd (get_people_data w e)) = cache w)
  /\ (cache_miss w e -> sheet_values e = None ->
      fst (get_people_data w e) = Raise
      /\ cache (snd (get_people_data w e)) = cache w)
  /\ (forall value expires,
        links (cache w) !! cache_key = Some (value, expires) ->
        (now_contains e < expires)%Z -> (now_getitem e < expires)%Z ->
        get_people_data w e = (Return value, w)).
Proof.
  unfold cache_miss, get_people_data, cache_contains, cache_getitem.
  split; [intros ->; reflexivity|].
  split; [intros value expires -> Hle; apply Z.ltb_ge, Hle|].
  split; [intros ->; destruct (sheet_values e) as [[|row rows]|]; reflexivity|].
  split.
  { intros -> row rows ->. split; [reflexivity|]. simpl. apply lookup_insert_eq. }
  split; [intros -> ->; split; reflexivity|].
  split; [intros -> ->; split; reflexivity|].
  intros value expires -> H1 H2.
  apply Z.ltb_lt in H1, H2. rewrite H1, H2. reflexivity.
Qed.

(** ** The name matcher on names without surrounding blanks *)

Lemma Qle_bool_true a b : (a <= b)%Q -> Qle_bool a b = true.
Proof. apply Qle_bool_iff. Qed.

Lemma Qle_bool_false a b : (b < a)%Q -> Qle_bool a b = false.
Proof.
  intros H. apply not_true_iff_false. rewrite Qle_bool_iff.
  apply Qlt_not_le, H.
Qed.

Ltac q_split a b :=
  let H := fresh "H" in
  destruct (Qlt_le_dec b a) as [H|H];
  [ rewrite (Qle_bool_false a b H) in *
  | rewrite (Qle_bool_true a b H) in * ].

Ltac q_cases :=
  repeat match goal with
         | |- context [Qle_bool ?a ?b] => q_split a b
         | H : context [Qle_bool ?a ?b] |- _ => q_split a b
         end.

(** One candidate name, seen through its ratio [x] alone. *)
Lemma consider_trimmed name person cand best :
  str_truthy name = true ->
  already_trimmed name -> already_trimmed cand ->
  Qgeb (ratio (lower name) (lower "")) 0.85%Q = false ->
  consider name person cand best
  = let x := ratio (lower name) (lower cand) in
    if Qgeb x 0.85%Q
    then if Qgtb x (snd best) then (Some person, x) else best
    else best.
Proof.
  intros Hname Hn Hc H0. unfold consider, _fuzzy_match.
  rewrite Hname, Hn, Hc. cbv zeta.
  destruct cand as [|c t]; [|reflexivity].
  simpl. rewrite H0. reflexivity.
Qed.

Lemma same_best_step name person code spec :
  str_truthy name = true ->
  already_trimmed name ->
  already_trimmed (get person "full_name") ->
  already_trimmed (get person "preferred_name") ->
  Qgeb (ratio (lower name) (lower "")) 0.85%Q = false ->
  same_best code spec ->
  same_best (name_step name code person) (spec_step name spec person).
Proof.
  intros Hname Hn Hf Hp H0 Hinv.
  unfold name_step. rewrite !consider_trimmed by assumption.
  unfold spec_step, spec_score, spec_ratio. rewrite Hn, Hf, Hp. cbv zeta.
  set (rf := ratio (lower name) (lower (get person "full_name"))).
  set (rp := ratio (lower name) (lower (get person "preferred_name"))).
  clearbody rf rp. clear Hf Hp H0 Hn Hname.
  destruct code as [b br]. unfold same_best in *.
  destruct spec as [[p m]|].
  - unfold Qgeb, Qgtb in *. q_cases; cbn [negb fst snd] in *;
      repeat match goal with
             | H : _ /\ _ |- _ => destruct H
             | H : (_, _) = (_, _) |- _ => injection H as -> ->
             end;
      cbn [fst snd] in *; q_cases; cbn [negb fst snd] in *;
      try (exfalso; lra); try (split; [reflexivity|lra]);
      try (split; [assumption|lra]); try reflexivity.
  - injection Hinv as -> ->.
    unfold Qgeb, Qgtb in *. q_cases; cbn [negb fst snd] in *; q_cases;
      cbn [negb fst snd] in *;
      try (exfalso; lra); try (split; [reflexivity|lra]); try reflexivity.
Qed.

(** For a non-empty raw name, when neither the raw name nor any stored
    name has a blank at either end (and an empty stored name stays below
    the threshold), [find_by_name] returns what the specified matcher
    returns: the first record with the highest score, when that score
    reaches 0.85. *)
Theorem find_by_name_matches_spec_when_trimmed
    (people : list Person) (name : string) :
  str_truthy name = true ->
  already_trimmed name ->
  (forall person, In person people ->
     already_trimmed (get person "full_name")
     /\ already_trimmed (get person "preferred_name")) ->
  Qgeb (ratio (lower name) (lower "")) 0.85%Q = false ->
  find_by_name people name = spec_find_by_name people name.
Proof.
  intros Hname Hn Hall H0. unfold find_by_name, spec_find_by_name.
  rewrite Hname. cbn [negb].
  assert (Hinv : forall code spec,
             same_best code spec ->
             same_best (foldl (name_step name) code people)
                       (foldl (spec_step name) spec people)).
  { induction people as [|person rest IH]; intros code spec Hcs; [exact Hcs|].
    simpl. apply IH.
    - intros q Hq. apply Hall. right. exact Hq.
    - destruct (Hall person (or_introl eq_refl)) as [Hf Hp].
      apply same_best_step; assumption. }
  specialize (Hinv (None, 0%Q) None eq_refl). unfold same_best in Hinv.
  destruct (foldl (spec_step name) None people) as [[p m]|].
  - destruct (Qgeb m 0.85%Q); [apply Hinv|rewrite Hinv; reflexivity].
  - rewrite Hinv. reflexivity.
Qed.

(** ** Further properties of the phone normalizer and the finder *)

Lemma strip_non_phone_app a b :
  strip_non_phone (a +:+ b) = strip_non_phone a +:+ strip_non_phone b.
Proof.
  induction a as [|c t IH]; [reflexivity|].
  change (String c t +:+ b) with (String c (t +:+ b)).
  cbn [strip_non_phone]. rewrite IH.
  destruct (digit_or_plus c); reflexivity.
Qed.

Lemma strip_non_phone_kept s :
  forallb digit_or_plus (chars (strip_non_phone s)) = true.
Proof.
  induction s as [|c t IH]; [reflexivity|]. cbn [strip_non_phone].
  destruct (digit_or_plus c) eqn:E; [|exact IH].
  cbn [chars forallb]. rewrite E. exact IH.
Qed.

Lemma digits_are_clean d :
  forallb is_digit (chars d) = true -> strip_non_phone d = d.
Proof.
  induction d as [|c t IH]; [reflexivity|]. cbn [chars forallb].
  intros [Hc Ht]%andb_true_iff. cbn [strip_non_phone].
  unfold digit_or_plus. rewrite Hc, (IH Ht). reflexivity.
Qed.

(** The normalized form is empty exactly for the empty input; otherwise it
    begins with a plus sign; and it holds digits and plus signs only. *)
Theorem normalize_phone_form (x : string) :
  str_truthy (_normalize_phone x) = str_truthy x
  /\ startswith (_normalize_phone x) "+" = str_truthy x
  /\ forallb digit_or_plus (chars (_normalize_phone x)) = true.
Proof.
  destruct x as [|c t]; [repeat split|].
  destruct (normalize_phone_shape c t) as (s & -> & Hs).
  repeat split. cbn [chars forallb]. rewrite <- Hs.
  apply strip_non_phone_kept.
Qed.

(** A character that is neither a digit nor a plus sign (a blank, a dash, a
    parenthesis) can be put anywhere into a non-empty phone string without
    changing its normalized form. *)
Theorem normalize_phone_ignores_formatting (a b : string) (c : ascii) :
  digit_or_plus c = false ->
  str_truthy (a +:+ b) = true ->
  _normalize_phone (a +:+ String c b) = _normalize_phone (a +:+ b).
Proof.
  intros Hc Hab. unfold _normalize_phone. rewrite Hab.
  assert (Hne : str_truthy (a +:+ String c b) = true) by (destruct a; reflexivity).
  rewrite Hne. cbn [negb].
  rewrite !strip_non_phone_app. cbn [strip_non_phone]. rewrite Hc.
  reflexivity.
Qed.

(** The three usual ways of writing a Turkish number give one normalized
    form: for every digit string [d], the local form [0d], the form [90d]
    and the form [+90d] are all normalized to [+90d]. *)
Theorem normalize_phone_turkish_formats (d : string) :
  forallb is_digit (chars d) = true ->
  _normalize_phone ("0" +:+ d) = "+90" +:+ d
  /\ _normalize_phone ("90" +:+ d) = "+90" +:+ d
  /\ _normalize_phone ("+90" +:+ d) = "+90" +:+ d.
Proof.
  intros Hd%digits_are_clean.
  change ("0" +:+ d) with (String "0" d).
  change ("90" +:+ d) with (String "9" (String "0" d)).
  change ("+90" +:+ d) with (String "+" (String "9" (String "0" d))).
  assert (H90 : strip_non_phone (String "9" (String "0" d))
                = String "9" (String "0" d)).
  { cbn [strip_non_phone]. change (digit_or_plus "9") with true.
    change (digit_or_plus "0") with true. cbv iota. rewrite Hd. reflexivity. }
  split; [|split].
  - unfold _normalize_phone. cbn [str_truthy negb strip_non_phone].
    change (digit_or_plus "0") with true. cbv iota. rewrite Hd. reflexivity.
  - unfold _normalize_phone. cbn [str_truthy negb]. rewrite H90. reflexivity.
  - apply normalize_plus_prefixed, H90.
Qed.

(** [find_by_phone] finds nothing for an empty phone; a record it returns
    belongs to the table, stores a non-empty phone and has the normalized
    phone of the query; when it finds nothing for a non-empty phone, no
    record of the table has that normalized phone. *)
Theorem find_by_phone_spec (people : list Person) (phone : string) :
  find_by_phone people "" = None
  /\ (forall A, find_by_phone people phone = Some A ->
        In A people
        /\ str_truthy phone = true
        /\ str_truthy (get A "phone") = true
        /\ _normalize_phone (get A "phone") = _normalize_phone phone)
  /\ (find_by_phone people phone = None -> str_truthy phone = true ->
      forall r, In r people ->
        _normalize_phone (get r "phone") <> _normalize_phone phone).
Proof.
  split; [reflexivity|]. unfold find_by_phone. split.
  - intros A. destruct (str_truthy phone) eqn:Hp; [|discriminate]. cbn [negb].
    intros (before & after & -> & HA & _)%scan_phone_first.
    split; [apply in_or_app; right; left; reflexivity|].
    split; [reflexivity|]. split; [|exact HA].
    destruct (get A "phone") eqn:E; [|reflexivity].
    exfalso. apply (normalize_phone_nonempty phone Hp). rewrite <- HA.
    reflexivity.
  - intros Hnone Hp r Hin Hr. rewrite Hp in Hnone. cbn [negb] in Hnone.
    destruct (scan_phone_some _ _ _ Hin Hr) as [A HA]. congruence.
Qed.

Lemma consider_fst name person cand best p :
  fst (consider name person cand best) = Some p ->
  fst best = Some p
  \/ (p = person /\ str_truthy cand && _fuzzy_match name cand 0.85%Q = true).
Proof.
  unfold consider.
  destruct (str_truthy cand && _fuzzy_match name cand 0.85%Q); [|auto].
  destruct (Qgtb _ _); [|auto]. cbn [fst]. intros [= <-]. auto.
Qed.

Lemma name_step_fst name best person p :
  fst (name_step name best person) = Some p ->
  fst best = Some p \/ (p = person /\ admitted name person = true).
Proof.
  unfold name_step, admitted.
  intros [[H|[-> H]]%consider_fst|[-> H]]%consider_fst; auto.
  - right. split; [reflexivity|]. rewrite H. reflexivity.
  - right. split; [reflexivity|]. rewrite H. apply orb_true_r.
Qed.

Lemma foldl_name_step_fst name people best p :
  fst (foldl (name_step name) best people) = Some p ->
  fst best = Some p \/ (In p people /\ admitted name p = true).
Proof.
  revert best. induction people as [|person rest IH]; intros best; [auto|].
  cbn [foldl]. intros [[H|[-> H]]%name_step_fst|[Hin H]]%IH.
  - auto.
  - right. split; [left; reflexivity|exact H].
  - right. split; [right; exact Hin|exact H].
Qed.

Lemma find_by_name_some people name p :
  find_by_name people name = Some p ->
  In p people /\ str_truthy name = true /\ admitted name p = true.
Proof.
  unfold find_by_name. destruct (str_truthy name); [|discriminate].
  cbn [negb]. intros [H|[Hin H]]%foldl_name_step_fst; [discriminate|auto].
Qed.

(** [find_by_name] finds nothing for an empty name; a record it returns
    belongs to the table and has a non-empty full or preferred name whose
    trimmed, case-folded ratio to the raw name reaches 0.85; when no record
    of the table has such a name it finds nothing. *)
Theorem find_by_name_sound (people : list Person) (name : string) :
  find_by_name people "" = None
  /\ (forall p, find_by_name people name = Some p ->
        In p people /\ str_truthy name = true /\ admitted name p = true)
  /\ ((forall p, In p people -> admitted name p = false) ->
      find_by_name people name = None).
Proof.
  split; [reflexivity|]. split; [apply find_by_name_some|].
  intros Hnone. destruct (find_by_name people name) as [p|] eqn:E; [|reflexivity].
  apply find_by_name_some in E as (Hin & _ & Hp).
  rewrite (Hnone p Hin) in Hp. discriminate.
Qed.

(** Resolution never makes a record up: what [find_person] returns is a
    record of the table; and with neither a phone nor a name (missing or
    empty) it returns nothing. *)
Theorem find_person_returns_table_record
    (people : list Person) (user_phone user_name : option string) :
  (forall p, find_person people user_phone user_name = Some p -> In p people)
  /\ (opt_truthy user_phone = false -> opt_truthy user_name = false ->
      find_person people user_phone user_name = None).
Proof.
  unfold find_person, resolve_by_phone, resolve_by_name. split.
  - intros p H.
    assert (Hphone : forall q, truthy_person (find_by_phone people q) = Some p ->
                               In p people).
    { intros q [Hq _]%truthy_person_some. unfold find_by_phone in Hq.
      destruct (str_truthy q); [|discriminate]. cbn [negb] in Hq.
      apply scan_phone_first in Hq as (before & after & -> & _).
      apply in_or_app. right. left. reflexivity. }
    assert (Hname : forall n, truthy_person (find_by_name people n) = Some p ->
                              In p people).
    { intros n [Hn _]%truthy_person_some.
      apply find_by_name_some in Hn as [Hin _]. exact Hin. }
    destruct user_phone as [q|], user_name as [n|]; cbn in H;
      repeat match type of H with
             | context [str_truthy ?s] => destruct (str_truthy s)
             | context [truthy_person (find_by_phone people ?q)] =>
                 let E := fresh "E" in
                 destruct (truthy_person (find_by_phone people q)) eqn:E;
                 [injection H as ->; eapply Hphone, E|]
             end; try discriminate; eauto.
  - intros Hp Hn.
    destruct user_phone as [q|]; cbn [opt_truthy] in Hp; [rewrite Hp|];
      (destruct user_name as [n|]; cbn [opt_truthy] in Hn; [rewrite Hn|]);
      reflexivity.
Qed.

(** ** Rows, records and facts *)

Lemma headers_cases i header :
  headers !! i = Some header ->
  (i = 0 /\ header = "person_id") \/ (i = 1 /\ header = "full_name")
  \/ (i = 2 /\ header = "preferred_name") \/ (i = 3 /\ header = "school")
  \/ (i = 4 /\ header = "department") \/ (i = 5 /\ header = "email")
  \/ (i = 6 /\ header = "phone") \/ (i = 7 /\ header = "locale")
  \/ (i = 8 /\ header = "profile_doc_id") \/ (i = 9 /\ header = "profile_text")
  \/ (i = 10 /\ header = "last_updated").
Proof.
  do 11 (destruct i as [|i]; [intros [= <-]; tauto|]). discriminate.
Qed.

Lemma row_to_person_header row i header :
  headers !! i = Some header ->
  row_to_person row !! header = Some (default "" (row !! i)).
Proof.
  intros H. apply headers_cases in H.
  repeat (destruct H as [[-> ->]|H]; [reflexivity|]).
  destruct H as [-> ->]. reflexivity.
Qed.

Lemma row_to_person_other row k :
  ~ In k headers -> row_to_person row !! k = None.
Proof.
  intros Hk. unfold row_to_person. cbn [headers length seq zip zip_with foldl fst snd].
  rewrite !lookup_insert_ne; [apply lookup_empty|..];
    intros <-; apply Hk; cbn; tauto.
Qed.

Lemma parse_rows_filter values :
  parse_rows values = map row_to_person (List.filter long_enough values).
Proof.
  induction values as [|row rest IH]; [reflexivity|].
  cbn [parse_rows List.filter]. unfold long_enough at 1.
  destruct (length headers <=? length row)%nat; cbn [map]; rewrite IH;
    reflexivity.
Qed.

(** Rows with fewer cells than headers are left out without an error and
    the other rows keep their order.  A record built from a row has the
    eleven header keys and no other, and under the [i]-th header it holds
    the [i]-th cell of its row: no field is ever filled with the default,
    and cells past the eleventh are dropped. *)
Theorem parse_rows_records (values : list (list string)) :
  parse_rows values = map row_to_person (List.filter long_enough values)
  /\ (forall person, In person (parse_rows values) ->
        exists row,
          In row values /\ long_enough row = true
          /\ person = row_to_person row
          /\ (forall i header, headers !! i = Some header ->
                person !! header = row !! i /\ is_Some (row !! i))
          /\ (forall k, ~ In k headers -> person !! k = None)).
Proof.
  split; [apply parse_rows_filter|].
  intros person. rewrite parse_rows_filter.
  intros (row & <- & [Hin Hlong]%filter_In)%in_map_iff.
  exists row. repeat split; auto.
  - rewrite (row_to_person_header _ _ _ H).
    assert (Hi : (i < length row)%nat).
    { apply lookup_lt_Some in H. unfold long_enough in Hlong.
      apply Nat.leb_le in Hlong. lia. }
    destruct (lookup_lt_is_Some_2 row i Hi) as [cell ->]. reflexivity.
  - apply lookup_lt_is_Some_2. apply lookup_lt_Some in H.
    unfold long_enough in Hlong. apply Nat.leb_le in Hlong. lia.
  - intros k Hk. apply row_to_person_other, Hk.
Qed.

Lemma build_facts_key person k :
  In k fact_keys -> build_facts person !! k = Some (get person k).
Proof.
  unfold fact_keys. cbn [In]. intros H.
  repeat (destruct H as [<-|H]; [reflexivity|]). destruct H.
Qed.

Lemma build_facts_other person k :
  ~ In k fact_keys -> build_facts person !! k = None.
Proof.
  intros Hk. unfold build_facts.
  rewrite !lookup_insert_ne; [apply lookup_empty|..];
    intros <-; apply Hk; cbn; tauto.
Qed.

(** The facts always hold the nine fact keys and no other: a key the record
    lacks is given the empty string, never left out.  For a record built
    from a row, each fact is the row's cell under that header, and the
    [profile_doc_id] and [last_updated] cells never reach the facts. *)
Theorem build_facts_total (person : Person) :
  (forall k, In k fact_keys ->
     build_facts person !! k = Some (default "" (person !! k)))
  /\ (forall k, ~ In k fact_keys -> build_facts person !! k = None)
  /\ (forall row i header,
        person = row_to_person row ->
        headers !! i = Some header -> In header fact_keys ->
        build_facts person !! header = Some (default "" (row !! i)))
  /\ build_facts person !! "profile_doc_id" = None
  /\ build_facts person !! "last_updated" = None.
Proof.
  split; [intros k Hk; apply build_facts_key, Hk|].
  split; [apply build_facts_other|].
  split; [|split; reflexivity].
  intros row i header -> Hh Hk.
  rewrite (build_facts_key _ _ Hk). unfold get.
  rewrite (row_to_person_header _ _ _ Hh). reflexivity.
Qed.

(** ** More on the table cache and on the calls a request makes *)

Lemma get_people_data_stores w e row rows :
  cache_miss w e -> sheet_values e = Some (row :: rows) ->
  links (cache (snd (get_people_data w e))) !! cache_key
  = Some (parse_rows (row :: rows), (now_setitem e + ttl (cache w))%Z)
  /\ ttl (cache (snd (get_people_data w e))) = ttl (cache w).
Proof.
  unfold cache_miss, get_people_data. intros -> ->. split; [|reflexivity].
  cbn. apply lookup_insert_eq.
Qed.

(** A table read and stored by one call is served by a later call for as
    long as the entry lives: a call whose two timer readings are below the
    expiry time returns the stored records and leaves the state as it is;
    a call at or past the expiry time misses.  With a time to live of zero
    or less every later call misses: nothing is ever served from the cache. *)
Theorem stored_table_served_until_expiry
    (w : World) (e e' : SheetsEnv) (row : list string)
    (rows : list (list string)) :
  cache_miss w e ->
  sheet_values e = Some (row :: rows) ->
  ((now_contains e' < now_setitem e + ttl (cache w))%Z ->
   (now_getitem e' < now_setitem e + ttl (cache w))%Z ->
   get_people_data (snd (get_people_data w e)) e'
   = (Return (parse_rows (row :: rows)), snd (get_people_data w e)))
  /\ ((now_setitem e + ttl (cache w) <= now_contains e')%Z ->
      cache_miss (snd (get_people_data w e)) e')
  /\ ((ttl (cache w) <= 0)%Z -> (now_setitem e <= now_contains e')%Z ->
      cache_miss (snd (get_people_data w e)) e').
Proof.
  intros Hmiss Hvalues.
  destruct (get_people_data_stores w e row rows Hmiss Hvalues) as [Hlinks _].
  assert (Hexp : (now_setitem e + ttl (cache w) <= now_contains e')%Z ->
                 cache_miss (snd (get_people_data w e)) e').
  { intros Hle. unfold cache_miss, cache_contains. rewrite Hlinks.
    apply Z.ltb_ge, Hle. }
  split; [|split; [exact Hexp|intros; apply Hexp; lia]].
  intros H1 H2. unfold get_people_data at 1.
  unfold cache_contains, cache_getitem. rewrite Hlinks.
  apply Z.ltb_lt in H1, H2. rewrite H1, H2. reflexivity.
Qed.

(** An entry that is alive when [get_people_data] tests the cache and has
    expired when it reads the cache makes the call raise, outside the
    [try] block: no remote read is begun, the state is unchanged, and the
    request ends with the status 500 response. *)
Theorem entry_expiring_mid_call_raises
    (w : World) (env : Env) (request : ChatRequest)
    (value : list Person) (expires : Z) :
  links (cache w) !! cache_key = Some (value, expires) ->
  (now_contains (sheets_env env) < expires)%Z ->
  (expires <= now_getitem (sheets_env env))%Z ->
  get_people_data w (sheets_env env) = (Raise, w)
  /\ chat_endpoint w env request = (Http500 create_error_response, w).
Proof.
  intros Hlinks H1 H2.
  assert (Hget : get_people_data w (sheets_env env) = (Raise, w)).
  { unfold get_people_data, cache_contains, cache_getitem. rewrite Hlinks.
    apply Z.ltb_lt in H1. apply Z.ltb_ge in H2. rewrite H1, H2. reflexivity. }
  split; [exact Hget|]. unfold chat_endpoint. rewrite Hget. reflexivity.
Qed.

(** A remote read that fails on a cache miss ends the request with the
    status 500 response: the fixed apology, confidence 0.0 and no
    reference; the generation service is not called and nothing is stored
    in the cache. *)
Theorem fetch_failure_gives_error_response
    (w : World) (env : Env) (request : ChatRequest) :
  cache_miss w (sheets_env env) ->
  sheet_values (sheets_env env) = None ->
  exists err w',
    chat_endpoint w env request = (Http500 err, w')
    /\ err_answer_text err = apology_text
    /\ err_confidence err = 0%Q
    /\ err_references err = []
    /\ llm_calls w' = llm_calls w
    /\ cache w' = cache w
    /\ remote_fetches w' = S (remote_fetches w).
Proof.
  intros Hmiss Hnone. exists create_error_response, (count_fetch w).
  split; [|repeat split].
  unfold chat_endpoint, get_people_data. unfold cache_miss in Hmiss.
  rewrite Hmiss, Hnone. reflexivity.
Qed.

Lemma get_people_data_fetches w e :
  remote_fetches (snd (get_people_data w e))
  = if cache_contains (cache w) cache_key (now_contains e)
    then remote_fetches w else S (remote_fetches w).
Proof.
  unfold get_people_data.
  destruct (cache_contains _ _ _); [reflexivity|].
  destruct (sheet_values e) as [[|row rows]|]; reflexivity.
Qed.

Lemma chat_endpoint_world w env request :
  snd (chat_endpoint w env request)
  = match get_people_data w (sheets_env env) with
    | (Return people, w1) =>
        match find_person people (user_field request phone)
                (effective_name request) with
        | Some _ => count_llm_call w1
        | None => w1
        end
    | (Raise, w1) => w1
    end.
Proof.
  unfold chat_endpoint.
  destruct (get_people_data w (sheets_env env)) as [[people|] w1];
    [|reflexivity].
  destruct (find_person people _ _) as [person|] eqn:E; [|reflexivity].
  cbn [truthy_person]. rewrite (find_person_truthy _ _ _ _ E). reflexivity.
Qed.

(** What one request costs: a remote read is begun exactly when the cache
    lookup misses, and never more than one; the generation service is
    called once exactly when the table was obtained and a person resolved,
    and not at all otherwise. *)
Theorem calls_per_request (w : World) (env : Env) (request : ChatRequest) :
  remote_fetches (snd (chat_endpoint w env request))
  = (if cache_contains (cache w) cache_key (now_contains (sheets_env env))
     then remote_fetches w else S (remote_fetches w))
  /\ llm_calls (snd (chat_endpoint w env request))
     = match fst (get_people_data w (sheets_env env)) with
       | Return people =>
           match find_person people (user_field request phone)
                   (effective_name request) with
           | Some _ => S (llm_calls w)
           | None => llm_calls w
           end
       | Raise => llm_calls w
       end.
Proof.
  rewrite chat_endpoint_world.
  pose proof (get_people_data_fetches w (sheets_env env)) as Hf.
  pose proof (get_people_data_llm_calls w (sheets_env env)) as Hl.
  destruct (get_people_data w (sheets_env env)) as [[people|] w1];
    cbn [fst snd] in *; [|auto].
  destruct (find_person people _ _); cbn; rewrite ?Hl; auto.
Qed.

(** ** More on the reconciled response *)

Lemma reconcile_fields w env request person :
  let r0 := answer_of (build_facts person) (request_locale request person)
                      (llm env) in
  answer_text (fst (reconcile w env request person)) = answer_text r0
  /\ intent (fst (reconcile w env request person)) = intent r0
  /\ confidence (fst (reconcile w env request person)) = confidence r0
  /\ snd (reconcile w env request person) = count_llm_call w.
Proof. repeat split. Qed.

Lemma model_validate_fields data r :
  model_validate data = Some r ->
  data !! "answer_text" = Some (JStr (answer_text r))
  /\ data !! "intent" = Some (JStr (intent r))
  /\ data !! "confidence" ≫= pydantic_float = Some (confidence r)
  /\ Qle_bool 0 (confidence r) && Qle_bool (confidence r) 1 = true
  /\ match data !! "meta" with
     | None | Some JNull => meta r = None
     | Some (JObj m) => meta r = Some m
     | Some _ => False
     end.
Proof.
  unfold model_validate. intros H.
  repeat case_match; simplify_eq; cbn; auto.
Qed.

Lemma enrich_locale_result locale data data' :
  enrich_locale locale data = Return data' ->
  exists fields,
    data' !! "meta" = Some (JObj fields)
    /\ fields !! "locale_used"
       = Some (default (JStr locale) (own_locale data)).
Proof.
  unfold enrich_locale, own_locale.
  assert (Hgen : forall F : gmap string json,
             Return (<["meta" :=
                        JObj match F !! "locale_used" with
                             | Some _ => F
                             | None => <["locale_used" := JStr locale]> F
                             end]> data)
             = Return data' ->
             exists fields,
               data' !! "meta" = Some (JObj fields)
               /\ fields !! "locale_used"
                  = Some (default (JStr locale) (F !! "locale_used"))).
  { intros F [= <-]. destruct (F !! "locale_used") as [v|] eqn:E;
      eexists; rewrite lookup_insert_eq; (split; [reflexivity|]);
      [exact E|apply lookup_insert_eq]. }
  destruct (data !! "meta") as [v|]; [|exact (Hgen ∅)].
  destruct v as [|b|q| |s|items|fields]; cbn [json_truthy].
  - exact (Hgen ∅).
  - destruct b; [discriminate|exact (Hgen ∅)].
  - destruct (negb (Qeq_bool q 0)); [discriminate|exact (Hgen ∅)].
  - discriminate.
  - destruct (str_truthy s); [discriminate|exact (Hgen ∅)].
  - destruct items; [exact (Hgen ∅)|discriminate].
  - unfold dict_truthy. destruct (bool_decide_reflect (fields ≠ ∅)) as [Hne|He].
    + exact (Hgen fields).
    + assert (fields = ∅) as -> by (destruct (decide (fields = ∅)); tauto).
      exact (Hgen ∅).
Qed.

Lemma parse_answer_json facts locale data r :
  parse_answer facts locale (LlmJson (JObj data)) = Return r ->
  exists data',
    enrich_locale locale (inject_references facts data) = Return data'
    /\ model_validate data' = Some r
    /\ (forall k, k <> "references" -> k <> "meta" -> data' !! k = data !! k)
    /\ inject_references facts data !! "meta" = data !! "meta".
Proof.
  intros [[? _]|(d0 & data' & Hd & He & Hv)]%parse_answer_return;
    [discriminate|].
  injection Hd as <-. exists data'. repeat split; auto.
  - intros k H1 H2. rewrite (enrich_locale_other _ _ _ k He) by exact H2.
    apply inject_references_other, H1.
  - apply inject_references_other. discriminate.
Qed.

(** On the generation-success path the reconciliation leaves the answer as
    generated: the final text and intent are the strings of the generated
    object and the final confidence is the converted value of its
    [confidence] entry; only references and metadata are touched. *)
Theorem reconcile_keeps_generated_answer
    (w : World) (env : Env) (request : ChatRequest)
    (people : list Person) (w1 : World) (person : Person)
    (data : gmap string json) (r0 : ChatResponse) :
  get_people_data w (sheets_env env) = (Return people, w1) ->
  find_person people (user_field request phone) (effective_name request)
  = Some person ->
  llm env = LlmJson (JObj data) ->
  parse_answer (build_facts person) (request_locale request person) (llm env)
  = Return r0 ->
  exists r w2,
    chat_endpoint w env request = (Http200 r, w2)
    /\ data !! "answer_text" = Some (JStr (answer_text r))
    /\ data !! "intent" = Some (JStr (intent r))
    /\ data !! "confidence" ≫= pydantic_float = Some (confidence r).
Proof.
  intros Hget Hfind Hllm Hparse. eexists _, _.
  split; [eapply chat_endpoint_found; eauto|].
  destruct (reconcile_fields w1 env request person) as (-> & -> & -> & _).
  unfold answer_of. rewrite Hparse. rewrite Hllm in Hparse.
  apply parse_answer_json in Hparse as (data' & _ & Hv & Hsame & _).
  apply model_validate_fields in Hv as (Ht & Hi & Hc & _).
  rewrite Hsame in Ht, Hi, Hc by discriminate. auto.
Qed.

Lemma answer_of_confidence facts locale out :
  Qle_bool 0 (confidence (answer_of facts locale out))
  && Qle_bool (confidence (answer_of facts locale out)) 1 = true.
Proof.
  unfold answer_of.
  destruct (parse_answer facts locale out) as [r|] eqn:E; [|reflexivity].
  apply parse_answer_return in E as [[_ ->]|(data & data' & _ & _ & Hv)];
    [reflexivity|].
  apply model_validate_fields in Hv. tauto.
Qed.

(** [locale_used] of a reconciled response, on the generation-success
    path: a [locale_used] entry the generated metadata brings along is kept
    as it is, whatever its value; without one the entry is the locale
    derived for the request. *)
Theorem response_locale_used
    (w : World) (env : Env) (request : ChatRequest)
    (people : list Person) (w1 : World) (person : Person)
    (data : gmap string json) (r0 : ChatResponse) :
  get_people_data w (sheets_env env) = (Return people, w1) ->
  find_person people (user_field request phone) (effective_name request)
  = Some person ->
  llm env = LlmJson (JObj data) ->
  parse_answer (build_facts person) (request_locale request person) (llm env)
  = Return r0 ->
  exists r w2 m,
    chat_endpoint w env request = (Http200 r, w2)
    /\ meta r = Some m
    /\ m !! "locale_used"
       = Some (default (JStr (request_locale request person))
                       (own_locale data)).
Proof.
  intros Hget Hfind Hllm Hparse. eexists _, _, _.
  split; [eapply chat_endpoint_found; eauto|].
  split; [apply reconcile_meta|].
  fold (request_locale request person). unfold answer_of. rewrite Hparse.
  rewrite Hllm in Hparse.
  apply parse_answer_json in Hparse as (data' & He & Hv & _ & Hmeta).
  apply enrich_locale_result in He as (fields & Hf & Hl).
  apply model_validate_fields in Hv as (_ & _ & _ & _ & Hm).
  rewrite Hf in Hm. rewrite Hm.
  assert (Hown : own_locale (inject_references (build_facts person) data)
                 = own_locale data) by (unfold own_locale; rewrite Hmeta; reflexivity).
  rewrite Hown in Hl. apply enrich_meta_locale_used, Hl.
Qed.

(** Every response with status 200 carries a confidence between 0 and 1,
    whatever the table, the request and the generation service gave. *)
Theorem response_confidence_in_range
    (w : World) (env : Env) (request : ChatRequest)
    (r : ChatResponse) (w' : World) :
  chat_endpoint w env request = (Http200 r, w') ->
  (0 <= confidence r <= 1)%Q.
Proof.
  unfold chat_endpoint.
  destruct (get_people_data w (sheets_env env)) as [[people|] w1];
    [|discriminate].
  destruct (truthy_person _) as [person|].
  - destruct (reconcile w1 env request person) as [response w2] eqn:E.
    intros [= <- <-].
    pose proof (reconcile_fields w1 env request person) as (_ & _ & Hc & _).
    rewrite E in Hc. cbn [fst] in Hc. rewrite Hc.
    pose proof (answer_of_confidence (build_facts person)
                  (request_locale request person) (llm env)) as H.
    apply andb_true_iff in H as [H1 H2].
    split; apply Qle_bool_iff; assumption.
  - intros [= <- <-]. cbn. split; apply Qle_bool_iff; reflexivity.
Qed.

Lemma enrich_meta_keys m loc env tag :
  enrich_meta m loc env tag !! "request_id" = Some (JStr (request_id env))
  /\ enrich_meta m loc env tag !! "timing_ms" = Some (timing_ms env)
  /\ enrich_meta m loc env tag !! "match" = Some (JStr tag)
  /\ is_Some (enrich_meta m loc env tag !! "locale_used")
  /\ (forall k, ~ In k enriched_keys ->
        enrich_meta m loc env tag !! k = default ∅ m !! k).
Proof.
  unfold enrich_meta. repeat split.
  - rewrite !lookup_insert_ne by discriminate. apply lookup_insert_eq.
  - rewrite !lookup_insert_ne by discriminate. apply lookup_insert_eq.
  - apply lookup_insert_eq.
  - rewrite !lookup_insert_ne by discriminate. rewrite lookup_insert_eq. eauto.
  - intros k Hk. rewrite !lookup_insert_ne; [reflexivity|..];
      intros <-; apply Hk; cbn; tauto.
Qed.

(** The metadata of a reconciled response is the metadata the generation
    step returned with four entries set on top: the request id, the
    timings, the match tag and [locale_used]; every other entry is passed
    on unchanged and none is dropped. *)
Theorem meta_enrichment_is_additive
    (w : World) (env : Env) (request : ChatRequest)
    (people : list Person) (w1 : World) (person : Person) :
  get_people_data w (sheets_env env) = (Return people, w1) ->
  find_person people (user_field request phone) (effective_name request)
  = Some person ->
  exists r w2 m,
    chat_endpoint w env request = (Http200 r, w2)
    /\ meta r = Some m
    /\ m !! "request_id" = Some (JStr (request_id env))
    /\ m !! "timing_ms" = Some (timing_ms env)
    /\ is_Some (m !! "locale_used")
    /\ (forall k, ~ In k enriched_keys ->
          m !! k
          = default ∅ (meta (answer_of (build_facts person)
                               (request_locale request person) (llm env)))
              !! k).
Proof.
  intros Hget Hfind. eexists _, _, _.
  split; [eapply chat_endpoint_found; eauto|].
  split; [apply reconcile_meta|].
  fold (request_locale request person).
  destruct (enrich_meta_keys
              (meta (answer_of (build_facts person)
                       (request_locale request person) (llm env)))
              (request_locale request person) env
              (match_method (user_field request phone)
                            (effective_name request)))
    as (H1 & H2 & _ & H4 & H5).
  auto.
Qed.

(** The locale of a resolved request: the locale the request carries when
    that is non-empty, else the locale stored for the person when that is
    non-empty, else the default locale.  An empty string counts as no
    locale at either step. *)
Theorem request_locale_priority (request : ChatRequest) (person : Person) :
  (forall l, user_field request locale = Some l -> str_truthy l = true ->
     request_locale request person = l)
  /\ (opt_truthy (user_field request locale) = false ->
      str_truthy (get person "locale") = true ->
      request_locale request person = get person "locale")
  /\ (opt_truthy (user_field request locale) = false ->
      str_truthy (get person "locale") = false ->
      request_locale request person = default_locale settings).
Proof.
  unfold request_locale, derive_locale.
  change (build_facts person !! "locale") with (Some (get person "locale")).
  change (get (build_facts person) "locale") with (get person "locale").
  cbn [opt_truthy]. split; [|split].
  - intros l -> H. cbn [opt_truthy]. rewrite H. reflexivity.
  - intros -> ->. reflexivity.
  - intros -> ->. reflexivity.
Qed.

Lemma blank_to_none_truthy o : opt_truthy (blank_to_none o) = opt_truthy o.
Proof. unfold blank_to_none. destruct (opt_truthy o) eqn:E; [exact E|reflexivity]. Qed.

Lemma blank_to_none_keeps o : opt_truthy o = true -> blank_to_none o = o.
Proof. unfold blank_to_none. intros ->. reflexivity. Qed.

Lemma without_blanks_field request (field : UserInfo -> option string) :
  (field = name \/ field = phone \/ field = locale) ->
  user_field (without_blanks request) field
  = blank_to_none (user_field request field).
Proof.
  unfold user_field, without_blanks. cbn [user].
  destruct (user request) as [u|]; [|reflexivity].
  destruct (opt_truthy (name u)) eqn:En, (opt_truthy (phone u)) eqn:Ep,
           (opt_truthy (locale u)) eqn:El; cbn [orb];
    intros [-> | [-> | ->]]; cbn [name phone locale];
    unfold blank_to_none; rewrite ?En, ?Ep, ?El; reflexivity.
Qed.

Lemma resolve_by_phone_blank people o :
  resolve_by_phone people (blank_to_none o) = resolve_by_phone people o.
Proof.
  unfold blank_to_none. destruct o as [[|c t]|]; reflexivity.
Qed.

Lemma effective_name_blank request :
  effective_name (without_blanks request) = effective_name request.
Proof.
  unfold effective_name. rewrite without_blanks_field by auto.
  rewrite blank_to_none_truthy.
  destruct (opt_truthy (user_field request name)) eqn:E; [|reflexivity].
  apply blank_to_none_keeps, E.
Qed.

Lemma derive_locale_blank o facts :
  derive_locale (blank_to_none o) facts = derive_locale o facts.
Proof.
  unfold derive_locale. rewrite blank_to_none_truthy.
  destruct (opt_truthy o) eqn:E; [|reflexivity].
  rewrite (blank_to_none_keeps o E). reflexivity.
Qed.

(** Empty strings in the request count as missing fields: replacing every
    empty [name], [phone] or [locale] by a missing one, and a user object
    left with no field by a missing user, changes neither the response nor
    the state. *)
Theorem blank_fields_count_as_missing
    (w : World) (env : Env) (request : ChatRequest) :
  chat_endpoint w env (without_blanks request) = chat_endpoint w env request.
Proof.
  assert (Hrec : forall w1 person,
             reconcile w1 env (without_blanks request) person
             = reconcile w1 env request person).
  { intros w1 person. unfold reconcile, match_method.
    rewrite effective_name_blank, !without_blanks_field by auto.
    rewrite derive_locale_blank, blank_to_none_truthy. reflexivity. }
  unfold chat_endpoint.
  destruct (get_people_data w (sheets_env env)) as [[people|] w1];
    [|reflexivity].
  rewrite effective_name_blank, without_blanks_field by auto.
  unfold find_person, create_not_found_response.
  rewrite resolve_by_phone_blank, blank_to_none_truthy.
  destruct (truthy_person _) as [person|]; [|reflexivity].
  rewrite Hrec. reflexivity.
Qed.

(** The guidance response of an unresolved request carries the default
    locale, whatever locale the request asks for, and the mark
    [person_not_found]; it is not enriched: no request id, no timings, no
    match tag. *)
Theorem not_found_response_metadata
    (w : World) (env : Env) (request : ChatRequest)
    (people : list Person) (w1 : World) :
  get_people_data w (sheets_env env) = (Return people, w1) ->
  find_person people (user_field request phone) (effective_name request) = None ->
  exists r m,
    chat_endpoint w env request = (Http200 r, w1)
    /\ intent r = "genel"
    /\ meta r = Some m
    /\ m !! "locale_used" = Some (JStr (default_locale settings))
    /\ m !! "person_not_found" = Some (JBool true)
    /\ m !! "request_id" = None
    /\ m !! "timing_ms" = None
    /\ m !! "match" = None.
Proof.
  intros Hget Hfind. eexists _, _.
  split; [eapply chat_endpoint_not_found; eauto|].
  repeat split.
Qed.

Lemma model_validate_bad_references data v :
  data !! "references" = Some v -> (forall items, v <> JArr items) ->
  model_validate data = None.
Proof.
  intros Hv Hna. unfold model_validate. rewrite Hv.
  repeat case_match; simplify_eq; try reflexivity.
  all: exfalso; eapply Hna; reflexivity.
Qed.

Lemma model_validate_bad_confidence data c :
  data !! "confidence" ≫= pydantic_float = Some c ->
  Qle_bool 0 c && Qle_bool c 1 = false ->
  model_validate data = None.
Proof.
  intros Hc Hr. unfold model_validate. rewrite Hc, Hr.
  repeat case_match; reflexivity.
Qed.

(** Generated answers of the wrong shape end in the fallback answer: a
    parsed value that is not an object; a [references] entry that is truthy
    and not a list; a [meta] entry that is truthy and not an object; a
    confidence outside the range from 0 to 1. *)
Theorem ill_typed_answer_falls_back
    (facts : gmap string string) (loc : string) :
  (forall d, (forall data, d <> JObj data) ->
     answer_of facts loc (LlmJson d) = _fallback loc (facts !! "person_id"))
  /\ (forall data v,
        data !! "references" = Some v -> json_truthy v = true ->
        (forall items, v <> JArr items) ->
        answer_of facts loc (LlmJson (JObj data))
        = _fallback loc (facts !! "person_id"))
  /\ (forall data v,
        data !! "meta" = Some v -> json_truthy v = true ->
        (forall fields, v <> JObj fields) ->
        answer_of facts loc (LlmJson (JObj data))
        = _fallback loc (facts !! "person_id"))
  /\ (forall data c,
        data !! "confidence" ≫= pydantic_float = Some c ->
        ((c < 0)%Q \/ (1 < c)%Q) ->
        answer_of facts loc (LlmJson (JObj data))
        = _fallback loc (facts !! "person_id")).
Proof.
  assert (Hraise : forall out, parse_answer facts loc out = Raise ->
            answer_of facts loc out = _fallback loc (facts !! "person_id")).
  { intros out H. unfold answer_of. rewrite H. reflexivity. }
  split; [|split; [|split]].
  - intros d Hd. apply Hraise. unfold parse_answer.
    destruct d; try reflexivity. destruct (Hd fields eq_refl).
  - intros data v Hv Ht Hna. apply Hraise. unfold parse_answer.
    destruct (enrich_locale loc (inject_references facts data))
      as [data'|] eqn:E; [|reflexivity].
    rewrite (model_validate_bad_references data' v); [reflexivity| |exact Hna].
    rewrite (enrich_locale_other _ _ _ "references" E) by discriminate.
    unfold inject_references. rewrite Hv, Ht. exact Hv.
  - intros data v Hv Ht Hno. apply Hraise. unfold parse_answer.
    assert (E : enrich_locale loc (inject_references facts data) = Raise).
    { unfold enrich_locale.
      rewrite (inject_references_other facts data "meta") by discriminate.
      rewrite Hv, Ht. destruct v; try reflexivity.
      destruct (Hno fields eq_refl). }
    rewrite E. reflexivity.
  - intros data c Hc Hout. apply Hraise. unfold parse_answer.
    destruct (enrich_locale loc (inject_references facts data))
      as [data'|] eqn:E; [|reflexivity].
    rewrite (model_validate_bad_confidence data' c); [reflexivity| |].
    + rewrite (enrich_locale_other _ _ _ "confidence" E) by discriminate.
      rewrite inject_references_other by discriminate. exact Hc.
    + destruct Hout as [H|H].
      * rewrite (Qle_bool_false 0 c H). reflexivity.
      * rewrite (Qle_bool_false c 1 H). apply andb_false_r.
Qed.

(** ** The connection to the spreadsheet *)

(** Once [_get_sheet] has returned a spreadsheet, every later call returns
    that spreadsheet and leaves the connection as it is, whatever the
    outside would answer: nothing is authorized or opened again, over any
    series of later calls. *)
Theorem sheet_is_opened_once
    {Client Spreadsheet : Type}
    (c : Connection Client Spreadsheet) (env : ConnEnv Client Spreadsheet)
    (sheet : Spreadsheet) (c' : Connection Client Spreadsheet) :
  _get_sheet c env = (Return sheet, c') ->
  forall (later : list (ConnEnv Client Spreadsheet))
         (env' : ConnEnv Client Spreadsheet),
    after_calls c' later = c'
    /\ _get_sheet (after_calls c' later) env' = (Return sheet, c').
Proof.
  intros H.
  assert (Hs : _sheet c' = Some sheet).
  { unfold _get_sheet, _get_client in H.
    repeat case_match; simplify_eq; cbn; auto. }
  assert (Hcall : forall e, _get_sheet c' e = (Return sheet, c')).
  { intros e. unfold _get_sheet. rewrite Hs. reflexivity. }
  intros later env'.
  assert (Hlater : after_calls c' later = c').
  { induction later as [|e rest IH]; [reflexivity|].
    cbn [after_calls]. rewrite Hcall. exact IH. }
  rewrite Hlater. auto.
Qed.


(** ** Records in the cache, and a request from the sheet to the response *)

Lemma row_to_person_ok row : record_ok (row_to_person row).
Proof.
  intros k. split.
  - intros Hk. destruct (in_dec string_dec k headers) as [Hin|Hout]; [exact Hin|].
    rewrite (row_to_person_other row k Hout) in Hk. destruct Hk; discriminate.
  - intros (i & Hi)%(In_nth_error headers k).
    assert (Hh : headers !! i = Some k).
    { rewrite <- Hi. clear. revert i. induction headers as [|h t IH];
        intros [|i]; cbn; auto. }
    rewrite (row_to_person_header row i k Hh). eauto.
Qed.

Lemma parse_rows_ok values : Forall record_ok (parse_rows values).
Proof.
  rewrite parse_rows_filter. apply Forall_forall.
  intros p (row & <- & _)%list_elem_of_In%in_map_iff. apply row_to_person_ok.
Qed.

(** The records the pipeline works on are always well formed: starting
    from the empty cache, and over any number of calls, every list
    [get_people_data] stores or returns holds only records with exactly the
    eleven header keys. *)
Theorem cached_records_are_well_formed (w : World) (e : SheetsEnv) :
  cache_ok {| cache := new_cache settings; remote_fetches := 0;
              llm_calls := 0 |}
  /\ (cache_ok w ->
      cache_ok (snd (get_people_data w e))
      /\ forall people, fst (get_people_data w e) = Return people ->
                        Forall record_ok people).
Proof.
  split.
  - intros key value expires H. cbn in H. rewrite lookup_empty in H.
    discriminate.
  - intros Hok. unfold get_people_data.
    destruct (cache_contains (cache w) cache_key (now_contains e)) eqn:Ec.
    + split; [exact Hok|]. cbn [fst]. unfold cache_getitem.
      destruct (links (cache w) !! cache_key) as [[value expires]|] eqn:El;
        [|discriminate].
      destruct (now_getitem e <? expires)%Z; [|discriminate].
      intros people [= <-]. eapply Hok, El.
    + destruct (sheet_values e) as [[|row rows]|]; cbn [fst snd].
      * split; [exact Hok|]. intros people [= <-]. constructor.
      * pose proof (parse_rows_ok (row :: rows)) as Hparsed.
        set (parsed := parse_rows (row :: rows)) in *. clearbody parsed.
        split; [|intros people [= <-]; exact Hparsed].
        intros key value expires. cbn.
        destruct (decide (cache_key = key)) as [<-|Hne].
        -- rewrite lookup_insert_eq. intros [= <- _]. exact Hparsed.
        -- rewrite lookup_insert_ne by exact Hne.
           intros [H _]%map_lookup_filter_Some. eapply Hok, H.
      * split; [exact Hok|]. discriminate.
Qed.

Lemma parse_rows_app xs ys :
  parse_rows (xs ++ ys) = (parse_rows xs ++ parse_rows ys)%list.
Proof.
  induction xs as [|row rest IH]; [reflexivity|]. cbn [app parse_rows].
  destruct (length headers <=? length row)%nat; rewrite IH; reflexivity.
Qed.

Lemma scan_phone_app q xs ys :
  (forall r, In r xs -> _normalize_phone (get r "phone") <> q) ->
  scan_phone q (xs ++ ys) = scan_phone q ys.
Proof.
  induction xs as [|p rest IH]; [reflexivity|]. intros H. cbn [app scan_phone].
  destruct (String.eqb_spec (_normalize_phone (get p "phone")) q) as [E|E].
  - destruct (H p (or_introl eq_refl) E).
  - apply IH. intros r Hr. apply H. right. exact Hr.
Qed.

(** From the sheet to the response: when the table is read anew and a row
    with all its cells stores, under [phone], a number with the normalized
    form of the request's phone, and no complete row before it does, the
    request is answered with status 200 for the person of that row: the
    match tag is ["phone"], and when the row's [person_id] cell is not empty
    the references hold the People reference of that id. *)
Theorem phone_request_resolves_sheet_row
    (w : World) (env : Env) (request : ChatRequest)
    (before after : list (list string)) (row : list string) (p : string) :
  cache_miss w (sheets_env env) ->
  sheet_values (sheets_env env) = Some (before ++ row :: after)%list ->
  long_enough row = true ->
  user_field request phone = Some p ->
  str_truthy p = true ->
  _normalize_phone (default "" (row !! 6%nat)) = _normalize_phone p ->
  (forall r, In r before -> long_enough r = true ->
     _normalize_phone (default "" (r !! 6%nat)) <> _normalize_phone p) ->
  find_person (parse_rows (before ++ row :: after))
    (user_field request phone) (effective_name request)
  = Some (row_to_person row)
  /\ exists r w' m,
       chat_endpoint w env request = (Http200 r, w')
       /\ meta r = Some m
       /\ m !! "match" = Some (JStr "phone")
       /\ (str_truthy (default "" (row !! 0%nat)) = true ->
           In (people_reference (default "" (row !! 0%nat))) (references r)).
Proof.
  intros Hmiss Hvalues Hlong Hphone Hp Hrow Hbefore.
  assert (Hcell : forall r, get (row_to_person r) "phone" = default "" (r !! 6%nat))
    by reflexivity.
  assert (Hid : forall r, get (row_to_person r) "person_id"
                          = default "" (r !! 0%nat)) by reflexivity.
  assert (Hfind : find_person (parse_rows (before ++ row :: after))
                    (user_field request phone) (effective_name request)
                  = Some (row_to_person row)).
  { unfold find_person, resolve_by_phone. rewrite Hphone, Hp.
    assert (Hscan : find_by_phone (parse_rows (before ++ row :: after)) p
                    = Some (row_to_person row)).
    { unfold find_by_phone. rewrite Hp. cbn [negb].
      rewrite parse_rows_app, scan_phone_app.
      - cbn [parse_rows]. unfold long_enough in Hlong. rewrite Hlong.
        cbn [scan_phone]. rewrite Hcell, Hrow, String.eqb_refl. reflexivity.
      - intros r. rewrite parse_rows_filter.
        intros (r0 & <- & [Hin Hl]%filter_In)%in_map_iff.
        rewrite Hcell. apply Hbefore; assumption. }
    rewrite Hscan. cbn [truthy_person].
    rewrite (find_by_phone_truthy _ _ _ Hscan). reflexivity. }
  split; [exact Hfind|].
  assert (Hget : get_people_data w (sheets_env env)
                 = (Return (parse_rows (before ++ row :: after)),
                    snd (get_people_data w (sheets_env env)))).
  { unfold get_people_data. unfold cache_miss in Hmiss.
    rewrite Hmiss, Hvalues. destruct before; reflexivity. }
  eexists _, _, _. split; [eapply chat_endpoint_found; eauto|].
  split; [apply reconcile_meta|]. split.
  - rewrite enrich_meta_match. unfold match_method. rewrite Hphone.
    cbn [opt_truthy]. rewrite Hp. reflexivity.
  - intros Hne. rewrite reconcile_references, Hid.
    apply ensure_people_ref_In, Hne.
Qed.

End Pipeline.

(** ** The pipeline on concrete requests

    The examples run the pipeline with the ASCII behaviour of the library
    functions ([str_lower], [str_strip], [sm_ratio]), on the example table
    and the example message. *)

(** C9, example: the query ["-"] is normalized to ["+"], like ["( )"], and
    finds the first record whose stored phone is normalized to ["+"]. *)
Lemma symbols_only_phone_lookup_witness :
  _normalize_phone "-" = "+"
  /\ _normalize_phone "( )" = _normalize_phone "-"
  /\ find_by_phone [rec_plus_plus; rec_dash; rec_plus] "-" = Some rec_dash.
Proof.
  destruct (symbols_only_phone_lookup "-" eq_refl eq_refl eq_refl)
    as (H1 & H2 & H3).
  split; [exact H1|]. split; [apply H2; reflexivity|].
  rewrite H3. reflexivity.
Defined.

(** C9 as stated fails: the query ["-"] holds neither digit nor plus sign,
    and the lookup returns the record storing ["+"], which is neither the
    first record with a non-empty digit-free phone (that one stores ["++"])
    nor the first with a non-empty phone free of digits and plus signs (that
    one stores ["-"]). *)
Lemma digit_free_lookup_counterexample :
  str_truthy "-" = true /\ no_digit "-" = true /\ no_plus "-" = true
  /\ find_by_phone [rec_plus_plus; rec_plus; rec_dash] "-" = Some rec_plus
  /\ first_with_phone nonempty_digit_free [rec_plus_plus; rec_plus; rec_dash]
     = Some rec_plus_plus
  /\ first_with_phone nonempty_symbols_only [rec_plus_plus; rec_plus; rec_dash]
     = Some rec_dash
  /\ rec_plus <> rec_plus_plus
  /\ rec_plus <> rec_dash.
Proof.
  repeat split; try (reflexivity);
    intros E; apply (f_equal (fun d => get d "phone")) in E;
    vm_compute in E; discriminate.
Qed.

(** C6, example: the phone matches Ayse's record, the name matches Mehmet's
    record best; the resolution returns Ayse's record.  Without a phone the
    same name resolves to Mehmet's record. *)
Lemma find_person_phone_priority_witness :
  find_by_name str_lower str_strip sm_ratio
    (parse_rows [row_mehmet; row_ayse]) "Mehmet Demir"
  = Some (row_to_person row_mehmet)
  /\ find_person str_lower str_strip sm_ratio
       (parse_rows [row_mehmet; row_ayse])
       (Some "0555 123 45 67") (Some "Mehmet Demir")
     = Some (row_to_person row_ayse)
  /\ find_person str_lower str_strip sm_ratio
       (parse_rows [row_mehmet; row_ayse]) None (Some "Mehmet Demir")
     = Some (row_to_person row_mehmet).
Proof.
  split; [reflexivity|]. split.
  - destruct (find_person_phone_priority str_lower str_strip sm_ratio
                (parse_rows [row_mehmet; row_ayse])
                (Some "0555 123 45 67") (Some "Mehmet Demir")) as [H _].
    destruct (H "0555 123 45 67" eq_refl eq_refl) as
      (before & A & after & _ & _ & _ & Hfind & Hall).
    + exists (row_to_person row_ayse). split; [right; left; reflexivity|].
      reflexivity.
    + assert (Hc : find_by_phone (parse_rows [row_mehmet; row_ayse])
                     "0555 123 45 67" = Some (row_to_person row_ayse))
        by (reflexivity).
      rewrite Hc in Hfind. injection Hfind as <-. apply Hall.
  - destruct (find_person_phone_priority str_lower str_strip sm_ratio
                (parse_rows [row_mehmet; row_ayse])
                None (Some "Mehmet Demir")) as [_ H].
    rewrite H by (left; reflexivity). reflexivity.
Defined.

(** C5, the divergence.  The stored name ["Ayse Yilmaz    "] equals the raw
    name once trimmed (ratio 1.0), the stored name ["Ayse Yilmax"] is one
    letter off (ratio 10/11).  [find_by_name] admits both through the trimmed
    ratio and then ranks them by the untrimmed one (22/26 against 20/22): it
    returns the second record, where the matcher as specified returns the
    first. *)
Theorem find_by_name_ranks_untrimmed_ratio :
  find_by_name str_lower str_strip sm_ratio
    (parse_rows [row_padded; row_near]) "Ayse Yilmaz"
  = Some (row_to_person row_near)
  /\ spec_find_by_name str_lower str_strip sm_ratio
       (parse_rows [row_padded; row_near]) "Ayse Yilmaz"
     = Some (row_to_person row_padded)
  /\ (spec_score str_lower str_strip sm_ratio "Ayse Yilmaz"
        (row_to_person row_padded) == 1)%Q
  /\ (spec_score str_lower str_strip sm_ratio "Ayse Yilmaz"
        (row_to_person row_near) == 10 # 11)%Q
  /\ sm_ratio (str_lower "Ayse Yilmaz") (str_lower "Ayse Yilmaz    ")
     = (22 # 26)%Q
  /\ sm_ratio (str_lower "Ayse Yilmaz") (str_lower "Ayse Yilmax")
     = (20 # 22)%Q
  /\ row_to_person row_near <> row_to_person row_padded.
Proof.
  repeat split; try (reflexivity).
  intros E. apply (f_equal (fun d => get d "person_id")) in E.
  vm_compute in E. discriminate.
Qed.

(** Example for the matcher on trimmed names: on the example table, whose
    names carry no surrounding blank, both matchers return Ayse's record. *)
Lemma find_by_name_matches_spec_when_trimmed_witness :
  find_by_name str_lower str_strip sm_ratio
    (parse_rows [row_ayse; row_mehmet]) "Ayse Yilmaz"
  = spec_find_by_name str_lower str_strip sm_ratio
      (parse_rows [row_ayse; row_mehmet]) "Ayse Yilmaz"
  /\ spec_find_by_name str_lower str_strip sm_ratio
       (parse_rows [row_ayse; row_mehmet]) "Ayse Yilmaz"
     = Some (row_to_person row_ayse).
Proof.
  split; [|reflexivity].
  apply (find_by_name_matches_spec_when_trimmed str_lower str_strip sm_ratio).
  - reflexivity.
  - reflexivity.
  - intros person [<-|[<-|[]]]; split; reflexivity.
  - reflexivity.
Defined.

(** C7, example: a phone no record stores and no name. *)
Lemma not_found_short_circuits_witness :
  exists r,
    chat_endpoint str_lower str_strip sm_ratio no_name_found float_of_json
      ex_settings ex_world
      (ex_env [row_ayse; row_mehmet] LlmRaises)
      (ex_request None (Some "0555 000 00 00"))
    = (Http200 r,
       snd (get_people_data ex_world
              (ex_sheets_env (Some [row_ayse; row_mehmet]))))
    /\ answer_text r = not_found_with_phone_text
    /\ confidence r = 0.3%Q
    /\ llm_calls (snd (get_people_data ex_world
                         (ex_sheets_env (Some [row_ayse; row_mehmet])))) = 0%nat.
Proof.
  destruct (not_found_short_circuits str_lower str_strip sm_ratio
              no_name_found float_of_json ex_settings ex_world
              (ex_env [row_ayse; row_mehmet] LlmRaises)
              (ex_request None (Some "0555 000 00 00"))
              (parse_rows [row_ayse; row_mehmet])
              (snd (get_people_data ex_world
                      (ex_sheets_env (Some [row_ayse; row_mehmet])))))
    as (r & Hrun & Hcalls & Hconf & Htext & _).
  - reflexivity.
  - reflexivity.
  - exists r. repeat split; assumption.
Defined.

(** C10, example: the phone matches no record, the person is found by
    name, and the tag is ["phone"]. *)
Lemma match_tag_records_supplied_inputs_witness :
  find_by_phone (parse_rows [row_ayse; row_mehmet]) "0555 000 00 00" = None
  /\ find_by_name str_lower str_strip sm_ratio
       (parse_rows [row_ayse; row_mehmet]) "Ayse Yilmaz"
     = Some (row_to_person row_ayse)
  /\ exists r w2 m,
       chat_endpoint str_lower str_strip sm_ratio no_name_found float_of_json
         ex_settings ex_world
         (ex_env [row_ayse; row_mehmet] LlmRaises)
         (ex_request (Some "Ayse Yilmaz") (Some "0555 000 00 00"))
       = (Http200 r, w2)
       /\ meta r = Some m
       /\ m !! "match" = Some (JStr "phone").
Proof.
  split; [reflexivity|]. split; [reflexivity|].
  destruct (match_tag_records_supplied_inputs str_lower str_strip sm_ratio
              no_name_found float_of_json ex_settings ex_world
              (ex_env [row_ayse; row_mehmet] LlmRaises)
              (ex_request (Some "Ayse Yilmaz") (Some "0555 000 00 00"))
              (parse_rows [row_ayse; row_mehmet])
              (snd (get_people_data ex_world
                      (ex_sheets_env (Some [row_ayse; row_mehmet]))))
              (row_to_person row_ayse))
    as (r & w2 & m & Hrun & Hmeta & _ & Hphone & _).
  - reflexivity.
  - reflexivity.
  - exists r, w2, m. repeat split; [exact Hrun|exact Hmeta|].
    apply Hphone. reflexivity.
Defined.

(** C10 as stated fails: a request carrying a non-empty phone that resolves
    to nobody gets the guidance response, whose metadata has no [match]
    entry. *)
Lemma match_tag_counterexample :
  opt_truthy (Some "0555 000 00 00") = true
  /\ exists r w2 m,
       chat_endpoint str_lower str_strip sm_ratio no_name_found float_of_json
         ex_settings ex_world
         (ex_env [row_ayse; row_mehmet] LlmRaises)
         (ex_request None (Some "0555 000 00 00"))
       = (Http200 r, w2)
       /\ meta r = Some m
       /\ m !! "match" = None.
Proof.
  split; [reflexivity|].
  exists (create_not_found_response ex_settings (Some "0555 000 00 00") None),
         (snd (get_people_data ex_world
                 (ex_sheets_env (Some [row_ayse; row_mehmet])))),
         (<["person_not_found" := JBool true]>
          (<["locale_used" := JStr "tr-TR"]> ∅)).
  repeat split; reflexivity.
Qed.

(** C1 as stated fails for a record with an empty [person_id]: the request
    resolves to that record by phone, the generated answer names another
    source, and the final reference list holds no People reference. *)
Lemma people_reference_missing_counterexample :
  find_person str_lower str_strip sm_ratio (parse_rows [row_no_id])
    (Some "0555 000 11 22") None
  = Some (row_to_person row_no_id)
  /\ get (row_to_person row_no_id) "person_id" = ""
  /\ exists r w2,
       chat_endpoint str_lower str_strip sm_ratio no_name_found float_of_json
         ex_settings ex_world
         (ex_env [row_no_id] (LlmJson (JObj (answer_json [ref_json "Docs" "d1"]))))
         (ex_request None (Some "0555 000 11 22"))
       = (Http200 r, w2)
       /\ references r = [{| source := "Docs"; person_id := Some "d1" |}]
       /\ ~ In (people_reference "") (references r).
Proof.
  split; [reflexivity|]. split; [reflexivity|].
  pose (w1 := snd (get_people_data ex_world (ex_sheets_env (Some [row_no_id])))).
  pose (run := reconcile no_name_found float_of_json ex_settings w1
                 (ex_env [row_no_id]
                    (LlmJson (JObj (answer_json [ref_json "Docs" "d1"]))))
                 (ex_request None (Some "0555 000 11 22"))
                 (row_to_person row_no_id)).
  exists (fst run), (snd run). split; [|split].
  - apply (chat_endpoint_found _ _ _ _ _ _ _ _ _ (parse_rows [row_no_id]));
      reflexivity.
  - reflexivity.
  - vm_compute. intros [E|[]]. discriminate.
Qed.

(** C1, examples: Ayse's record (id ["p1"]) with a generated answer that
    names another source, and the record with the empty id with a generated
    answer that supplies no references. *)
Lemma resolved_person_is_referenced_witness :
  (exists r w2,
     chat_endpoint str_lower str_strip sm_ratio no_name_found float_of_json
       ex_settings ex_world
       (ex_env [row_ayse] (LlmJson (JObj (answer_json [ref_json "Docs" "d1"]))))
       (ex_request None (Some "0555 123 45 67"))
     = (Http200 r, w2)
     /\ In (people_reference "p1") (references r))
  /\ (exists r w2,
        chat_endpoint str_lower str_strip sm_ratio no_name_found float_of_json
          ex_settings ex_world
          (ex_env [row_no_id] (LlmJson (JObj (answer_json []))))
          (ex_request None (Some "0555 000 11 22"))
        = (Http200 r, w2)
        /\ references r = [people_reference ""]).
Proof.
  split.
  - destruct (resolved_person_is_referenced str_lower str_strip sm_ratio
                no_name_found float_of_json ex_settings ex_world
                (ex_env [row_ayse]
                   (LlmJson (JObj (answer_json [ref_json "Docs" "d1"]))))
                (ex_request None (Some "0555 123 45 67"))
                (parse_rows [row_ayse])
                (snd (get_people_data ex_world (ex_sheets_env (Some [row_ayse]))))
                (row_to_person row_ayse))
      as (r & w2 & Hrun & Hin & _).
    + reflexivity.
    + reflexivity.
    + exists r, w2. split; [exact Hrun|]. apply Hin. reflexivity.
  - destruct (resolved_person_is_referenced str_lower str_strip sm_ratio
                no_name_found float_of_json ex_settings ex_world
                (ex_env [row_no_id] (LlmJson (JObj (answer_json []))))
                (ex_request None (Some "0555 000 11 22"))
                (parse_rows [row_no_id])
                (snd (get_people_data ex_world (ex_sheets_env (Some [row_no_id]))))
                (row_to_person row_no_id))
      as (r & w2 & Hrun & _ & Hzero).
    + reflexivity.
    + reflexivity.
    + exists r, w2. split; [exact Hrun|].
      apply (Hzero (answer_json [])
               (answer_of float_of_json (build_facts (row_to_person row_no_id))
                  "tr-TR" (LlmJson (JObj (answer_json [])))));
        reflexivity.
Defined.

(** C2 as stated fails: a generated answer that lists the People reference
    of the resolved person twice keeps it twice in the final response. *)
Lemma duplicate_references_kept_counterexample :
  exists r w2,
    chat_endpoint str_lower str_strip sm_ratio no_name_found float_of_json
      ex_settings ex_world
      (ex_env [row_ayse]
         (LlmJson (JObj (answer_json [ref_json "People" "p1";
                                      ref_json "People" "p1"]))))
      (ex_request None (Some "0555 123 45 67"))
    = (Http200 r, w2)
    /\ references r = [people_reference "p1"; people_reference "p1"]
    /\ ~ List.NoDup (references r).
Proof.
  pose (w1 := snd (get_people_data ex_world (ex_sheets_env (Some [row_ayse])))).
  pose (run := reconcile no_name_found float_of_json ex_settings w1
                 (ex_env [row_ayse]
                    (LlmJson (JObj (answer_json [ref_json "People" "p1";
                                                 ref_json "People" "p1"]))))
                 (ex_request None (Some "0555 123 45 67"))
                 (row_to_person row_ayse)).
  exists (fst run), (snd run). split; [|split].
  - apply (chat_endpoint_found _ _ _ _ _ _ _ _ _ (parse_rows [row_ayse]));
      reflexivity.
  - reflexivity.
  - change (references (fst run))
      with [people_reference "p1"; people_reference "p1"].
    intros H. apply List.NoDup_cons_iff in H as [H _]. apply H. left. reflexivity.
Qed.

(** C2, example: the generated list [Docs d1; Docs d1; Sheets s1] comes
    back unchanged, followed by the People reference of Ayse's record. *)
Lemma reconcile_keeps_generated_references_witness :
  exists r w2,
    chat_endpoint str_lower str_strip sm_ratio no_name_found float_of_json
      ex_settings ex_world
      (ex_env [row_ayse]
         (LlmJson (JObj (answer_json [ref_json "Docs" "d1";
                                      ref_json "Docs" "d1";
                                      ref_json "Sheets" "s1"]))))
      (ex_request None (Some "0555 123 45 67"))
    = (Http200 r, w2)
    /\ references r
       = [ {| source := "Docs"; person_id := Some "d1" |};
           {| source := "Docs"; person_id := Some "d1" |};
           {| source := "Sheets"; person_id := Some "s1" |};
           people_reference "p1" ].
Proof.
  destruct (reconcile_keeps_generated_references str_lower str_strip sm_ratio
              no_name_found float_of_json ex_settings ex_world
              (ex_env [row_ayse]
                 (LlmJson (JObj (answer_json [ref_json "Docs" "d1";
                                              ref_json "Docs" "d1";
                                              ref_json "Sheets" "s1"]))))
              (ex_request None (Some "0555 123 45 67"))
              (parse_rows [row_ayse])
              (snd (get_people_data ex_world (ex_sheets_env (Some [row_ayse]))))
              (row_to_person row_ayse)
              (answer_json [ref_json "Docs" "d1"; ref_json "Docs" "d1";
                            ref_json "Sheets" "s1"])
              [ref_json "Docs" "d1"; ref_json "Docs" "d1"; ref_json "Sheets" "s1"]
              (answer_of float_of_json (build_facts (row_to_person row_ayse))
                 "tr-TR"
                 (LlmJson (JObj (answer_json [ref_json "Docs" "d1";
                                              ref_json "Docs" "d1";
                                              ref_json "Sheets" "s1"])))))
    as (r & w2 & Hrun & _ & Hrefs).
  - reflexivity.
  - reflexivity.
  - reflexivity.
  - reflexivity.
  - discriminate.
  - reflexivity.
  - exists r, w2. split; [exact Hrun|]. rewrite Hrefs. reflexivity.
Defined.

(** C3 as stated fails on the intent: the fallback answer carries the
    intent ["genel"], not ["general"]. *)
Lemma fallback_intent_counterexample :
  exists r w2,
    chat_endpoint str_lower str_strip sm_ratio no_name_found float_of_json
      ex_settings ex_world
      (ex_env [row_ayse] LlmRaises)
      (ex_request None (Some "0555 123 45 67"))
    = (Http200 r, w2)
    /\ intent r = "genel"
    /\ intent r <> "general".
Proof.
  pose (w1 := snd (get_people_data ex_world (ex_sheets_env (Some [row_ayse])))).
  pose (run := reconcile no_name_found float_of_json ex_settings w1
                 (ex_env [row_ayse] LlmRaises)
                 (ex_request None (Some "0555 123 45 67"))
                 (row_to_person row_ayse)).
  exists (fst run), (snd run). split; [|split].
  - apply (chat_endpoint_found _ _ _ _ _ _ _ _ _ (parse_rows [row_ayse]));
      reflexivity.
  - reflexivity.
  - change (intent (fst run)) with "genel". discriminate.
Qed.

(** C3, example: the service answers with an object that lacks the required
    [answer_text]; validation fails and the fallback answer is returned. *)
Lemma generation_failure_yields_fallback_witness :
  exists r w2 m,
    chat_endpoint str_lower str_strip sm_ratio no_name_found float_of_json
      ex_settings ex_world
      (ex_env [row_ayse]
         (LlmJson (JObj (<["intent" := JStr "bilgi"]> ∅))))
      (ex_request None (Some "0555 123 45 67"))
    = (Http200 r, w2)
    /\ answer_text r = apology_text
    /\ confidence r = 0%Q
    /\ references r = [people_reference "p1"]
    /\ meta r = Some m
    /\ m !! "fallback" = Some (JBool true)
    /\ m !! "locale_used" = Some (JStr "tr-TR").
Proof.
  destruct (generation_failure_yields_fallback str_lower str_strip sm_ratio
              no_name_found float_of_json ex_settings ex_world
              (ex_env [row_ayse]
                 (LlmJson (JObj (<["intent" := JStr "bilgi"]> ∅))))
              (ex_request None (Some "0555 123 45 67"))
              (parse_rows [row_ayse])
              (snd (get_people_data ex_world (ex_sheets_env (Some [row_ayse]))))
              (row_to_person row_ayse))
    as (r & w2 & m & Hrun & Htext & _ & Hconf & Hrefs & Hmeta & Hfb & Hloc).
  - reflexivity.
  - reflexivity.
  - reflexivity.
  - exists r, w2, m. repeat split; assumption.
Defined.

(** C4 as stated fails for a read that yields no row: the call returns the
    empty list without storing it, and the next call, one timer unit later,
    begins a second remote read. *)
Lemma empty_fetch_not_cached_counterexample :
  fst (get_people_data ex_world (ex_sheets_env (Some []))) = Return []
  /\ links (cache (snd (get_people_data ex_world (ex_sheets_env (Some [])))))
       !! cache_key = None
  /\ remote_fetches
       (snd (get_people_data
               (snd (get_people_data ex_world (ex_sheets_env (Some []))))
               (ex_sheets_env_after 1 (Some []))))
     = 2%nat.
Proof. repeat split. Qed.

(** C4, example: a first call that reads two rows, a second call 59 000
    timer units after the store (time to live: 60 000), a third call 60 000
    timer units after the store. *)
Lemma table_cache_behaviour_witness :
  let rows := [row_ayse; row_mehmet] in
  let first := get_people_data ex_world (ex_sheets_env (Some rows)) in
  let second := get_people_data (snd first) (ex_sheets_env_after 59000 None) in
  let third := get_people_data (snd second) (ex_sheets_env_after 60000 (Some rows)) in
  fst first = Return (parse_rows rows)
  /\ remote_fetches (snd first) = 1%nat
  /\ second = (Return (parse_rows rows), snd first)
  /\ remote_fetches (snd third) = 2%nat.
Proof.
  intros rows first second third.
  pose proof (table_cache_behaviour ex_world (ex_sheets_env (Some rows)))
    as (Hmiss & _ & Hone & Hstore & _).
  pose proof (Hmiss eq_refl) as M1.
  destruct (Hstore M1 row_ayse [row_mehmet] eq_refl) as [Hret Hlinks].
  assert (Hsecond : second = (Return (parse_rows rows), snd first)).
  { pose proof (table_cache_behaviour (snd first)
                  (ex_sheets_env_after 59000 None)) as (_ & _ & _ & _ & _ & _ & Hhit).
    apply (Hhit _ _ Hlinks); reflexivity. }
  split; [exact Hret|]. split; [exact (Hone M1)|]. split; [exact Hsecond|].
  pose proof (table_cache_behaviour (snd second)
                (ex_sheets_env_after 60000 (Some rows)))
    as (_ & Hexp & Hone3 & _).
  subst third. rewrite Hone3.
  - rewrite Hsecond. exact (f_equal S (Hone M1)).
  - apply (Hexp (parse_rows rows) 61200%Z); [|reflexivity].
    rewrite Hsecond. exact Hlinks.
Defined.

(** ** Further examples *)

(** Example: a blank inside a local number. *)
Lemma normalize_phone_ignores_formatting_witness :
  _normalize_phone "0555 1234567" = _normalize_phone "05551234567".
Proof.
  apply (normalize_phone_ignores_formatting "0555" "1234567" " "); reflexivity.
Defined.

(** Example: the three forms of 555 123 45 67. *)
Lemma normalize_phone_turkish_formats_witness :
  _normalize_phone "05551234567" = "+905551234567"
  /\ _normalize_phone "905551234567" = "+905551234567"
  /\ _normalize_phone "+905551234567" = "+905551234567".
Proof. apply (normalize_phone_turkish_formats "5551234567"). reflexivity. Defined.

(** Example: Ayse's phone is found, the unknown one is stored by nobody. *)
Lemma find_by_phone_spec_witness :
  (In (row_to_person row_ayse) (parse_rows [row_mehmet; row_ayse])
   /\ _normalize_phone (get (row_to_person row_ayse) "phone")
      = _normalize_phone "0555 123 45 67")
  /\ (forall r, In r (parse_rows [row_mehmet; row_ayse]) ->
        _normalize_phone (get r "phone") <> _normalize_phone "0555 000 00 00").
Proof.
  split.
  - destruct (find_by_phone_spec (parse_rows [row_mehmet; row_ayse])
                "0555 123 45 67") as (_ & H & _).
    destruct (H (row_to_person row_ayse) eq_refl) as (Hin & _ & _ & Hn).
    split; assumption.
  - destruct (find_by_phone_spec (parse_rows [row_mehmet; row_ayse])
                "0555 000 00 00") as (_ & _ & H).
    apply H; reflexivity.
Defined.

(** Example: the record returned for ["Ayse Yilmaz"] is of the table and
    one of its names passes the test. *)
Lemma find_by_name_sound_witness :
  In (row_to_person row_ayse) (parse_rows [row_mehmet; row_ayse])
  /\ admitted str_lower str_strip sm_ratio "Ayse Yilmaz"
       (row_to_person row_ayse) = true
  /\ find_by_name str_lower str_strip sm_ratio
       (parse_rows [row_mehmet; row_ayse]) "Zeynep Kaya" = None.
Proof.
  destruct (find_by_name_sound str_lower str_strip sm_ratio
              (parse_rows [row_mehmet; row_ayse]) "Ayse Yilmaz")
    as (_ & H & _).
  destruct (H (row_to_person row_ayse) eq_refl) as (Hin & _ & Hadm).
  split; [exact Hin|]. split; [exact Hadm|].
  destruct (find_by_name_sound str_lower str_strip sm_ratio
              (parse_rows [row_mehmet; row_ayse]) "Zeynep Kaya")
    as (_ & _ & Hnone).
  apply Hnone. intros p [<-|[<-|[]]]; reflexivity.
Defined.

(** Example: resolution by phone returns a record of the table, and a
    request with an empty phone and no name resolves nobody. *)
Lemma find_person_returns_table_record_witness :
  In (row_to_person row_ayse) (parse_rows [row_mehmet; row_ayse])
  /\ find_person str_lower str_strip sm_ratio
       (parse_rows [row_mehmet; row_ayse]) (Some "") None = None.
Proof.
  split.
  - apply (proj1 (find_person_returns_table_record str_lower str_strip sm_ratio
                    (parse_rows [row_mehmet; row_ayse])
                    (Some "0555 123 45 67") None)).
    reflexivity.
  - apply (proj2 (find_person_returns_table_record str_lower str_strip sm_ratio
                    (parse_rows [row_mehmet; row_ayse]) (Some "") None));
      reflexivity.
Defined.

(** Example: the short row is left out, the long row gives a record that
    holds its cells. *)
Lemma parse_rows_records_witness :
  parse_rows [row_short; row_ayse] = [row_to_person row_ayse]
  /\ row_to_person row_ayse !! "email" = Some "ayse@example.org"
  /\ row_to_person row_ayse !! "nickname" = None.
Proof.
  destruct (parse_rows_records [row_short; row_ayse]) as [Hmap Hrec].
  split; [rewrite Hmap; reflexivity|].
  destruct (Hrec (row_to_person row_ayse) (or_introl eq_refl))
    as (row & Hin & Hlong & Heq & Hcells & Hother).
  destruct Hin as [<-|[<-|[]]]; [discriminate|].
  split.
  - apply (Hcells 5%nat "email"). reflexivity.
  - apply Hother. cbn. intros H.
    repeat (destruct H as [H|H]; [discriminate|]). exact H.
Defined.

(** Example: the facts of Ayse's record. *)
Lemma build_facts_total_witness :
  build_facts (row_to_person row_ayse) !! "email" = Some "ayse@example.org"
  /\ build_facts (row_to_person row_ayse) !! "last_updated" = None
  /\ build_facts (∅ : gmap string string) !! "school" = Some "".
Proof.
  destruct (build_facts_total (row_to_person row_ayse))
    as (_ & _ & Hrow & _ & Hlast).
  split; [|split; [exact Hlast|]].
  - apply (Hrow row_ayse 5%nat "email"); [reflexivity|reflexivity|].
    cbn. tauto.
  - assert (Hin : In "school" fact_keys) by (cbn; tauto).
    exact (proj1 (build_facts_total ∅) "school" Hin).
Defined.

(** Example: the table stored at 1200 is served 100 timer units later and
    missed 60 000 timer units later. *)
Lemma stored_table_served_until_expiry_witness :
  get_people_data ex_world_loaded (ex_sheets_env_after 100 None)
  = (Return (parse_rows [row_ayse; row_mehmet]), ex_world_loaded)
  /\ cache_miss ex_world_loaded (ex_sheets_env_after 60000 None).
Proof.
  destruct (stored_table_served_until_expiry ex_world
              (ex_sheets_env (Some [row_ayse; row_mehmet]))
              (ex_sheets_env_after 100 None) row_ayse [row_mehmet]
              eq_refl eq_refl) as (Hhit & _ & _).
  destruct (stored_table_served_until_expiry ex_world
              (ex_sheets_env (Some [row_ayse; row_mehmet]))
              (ex_sheets_env_after 60000 None) row_ayse [row_mehmet]
              eq_refl eq_refl) as (_ & Hmiss & _).
  split; [apply Hhit; reflexivity|apply Hmiss; discriminate].
Defined.

(** Example: the entry expires at 61200, between the test and the read. *)
Lemma entry_expiring_mid_call_raises_witness :
  chat_endpoint str_lower str_strip sm_ratio no_name_found float_of_json
    ex_settings ex_world_loaded ex_env_racing
    (ex_request None (Some "0555 123 45 67"))
  = (Http500 create_error_response, ex_world_loaded).
Proof.
  apply (entry_expiring_mid_call_raises str_lower str_strip sm_ratio
           no_name_found float_of_json ex_settings ex_world_loaded
           ex_env_racing (ex_request None (Some "0555 123 45 67"))
           (parse_rows [row_ayse; row_mehmet]) 61200%Z);
    reflexivity.
Defined.

(** Example: the first request of a process, with the remote read failing. *)
Lemma fetch_failure_gives_error_response_witness :
  exists err w',
    chat_endpoint str_lower str_strip sm_ratio no_name_found float_of_json
      ex_settings ex_world ex_env_failing
      (ex_request None (Some "0555 123 45 67"))
    = (Http500 err, w')
    /\ err_answer_text err = apology_text
    /\ llm_calls w' = 0%nat
    /\ cache w' = cache ex_world.
Proof.
  destruct (fetch_failure_gives_error_response str_lower str_strip sm_ratio
              no_name_found float_of_json ex_settings ex_world ex_env_failing
              (ex_request None (Some "0555 123 45 67")) eq_refl eq_refl)
    as (err & w' & Hrun & Ht & _ & _ & Hl & Hc & _).
  exists err, w'. auto.
Defined.

(** Example: the generated text, intent and confidence come back as they
    were generated. *)
Lemma reconcile_keeps_generated_answer_witness :
  exists r w2,
    chat_endpoint str_lower str_strip sm_ratio no_name_found float_of_json
      ex_settings ex_world
      (ex_env [row_ayse] (LlmJson (JObj (answer_json []))))
      (ex_request None (Some "0555 123 45 67"))
    = (Http200 r, w2)
    /\ answer_text r = "Merhaba, bolumunuz kayitli."
    /\ intent r = "bilgi"
    /\ confidence r = 0.9%Q.
Proof.
  destruct (reconcile_keeps_generated_answer str_lower str_strip sm_ratio
              no_name_found float_of_json ex_settings ex_world
              (ex_env [row_ayse] (LlmJson (JObj (answer_json []))))
              (ex_request None (Some "0555 123 45 67"))
              (parse_rows [row_ayse])
              (snd (get_people_data ex_world (ex_sheets_env (Some [row_ayse]))))
              (row_to_person row_ayse)
              (answer_json [])
              (answer_of float_of_json (build_facts (row_to_person row_ayse))
                 "tr-TR" (LlmJson (JObj (answer_json [])))))
    as (r & w2 & Hrun & Ht & Hi & Hc); try reflexivity.
  exists r, w2. split; [exact Hrun|].
  cbv in Ht, Hi, Hc. injection Ht as Ht. injection Hi as Hi. injection Hc as Hc.
  auto.
Defined.

(** Example: a generated [locale_used] of [null] stays [null] in the final
    response; without a generated [meta] the derived locale is used. *)
Lemma response_locale_used_witness :
  (exists r w2 m,
     chat_endpoint str_lower str_strip sm_ratio no_name_found float_of_json
       ex_settings ex_world
       (ex_env [row_ayse]
          (LlmJson (JObj (answer_with_meta
                            (JObj (<["locale_used" := JNull]> ∅))))))
       (ex_request None (Some "0555 123 45 67"))
     = (Http200 r, w2)
     /\ meta r = Some m
     /\ m !! "locale_used" = Some JNull)
  /\ (exists r w2 m,
        chat_endpoint str_lower str_strip sm_ratio no_name_found float_of_json
          ex_settings ex_world
          (ex_env [row_ayse] (LlmJson (JObj (answer_json []))))
          (ex_request None (Some "0555 123 45 67"))
        = (Http200 r, w2)
        /\ meta r = Some m
        /\ m !! "locale_used" = Some (JStr "tr-TR")).
Proof.
  split.
  - destruct (response_locale_used str_lower str_strip sm_ratio
                no_name_found float_of_json ex_settings ex_world
                (ex_env [row_ayse]
                   (LlmJson (JObj (answer_with_meta
                                     (JObj (<["locale_used" := JNull]> ∅))))))
                (ex_request None (Some "0555 123 45 67"))
                (parse_rows [row_ayse])
                (snd (get_people_data ex_world (ex_sheets_env (Some [row_ayse]))))
                (row_to_person row_ayse)
                (answer_with_meta (JObj (<["locale_used" := JNull]> ∅)))
                (answer_of float_of_json (build_facts (row_to_person row_ayse))
                   "tr-TR"
                   (LlmJson (JObj (answer_with_meta
                                     (JObj (<["locale_used" := JNull]> ∅)))))))
      as (r & w2 & m & Hrun & Hmeta & Hloc); try reflexivity.
    exists r, w2, m. auto.
  - destruct (response_locale_used str_lower str_strip sm_ratio
                no_name_found float_of_json ex_settings ex_world
                (ex_env [row_ayse] (LlmJson (JObj (answer_json []))))
                (ex_request None (Some "0555 123 45 67"))
                (parse_rows [row_ayse])
                (snd (get_people_data ex_world (ex_sheets_env (Some [row_ayse]))))
                (row_to_person row_ayse)
                (answer_json [])
                (answer_of float_of_json (build_facts (row_to_person row_ayse))
                   "tr-TR" (LlmJson (JObj (answer_json [])))))
      as (r & w2 & m & Hrun & Hmeta & Hloc); try reflexivity.
    exists r, w2, m. auto.
Defined.

(** Example: the response to a resolved request with a failing generation
    service. *)
Lemma response_confidence_in_range_witness :
  exists r w',
    chat_endpoint str_lower str_strip sm_ratio no_name_found float_of_json
      ex_settings ex_world
      (ex_env [row_ayse] LlmRaises)
      (ex_request None (Some "0555 123 45 67"))
    = (Http200 r, w')
    /\ (0 <= confidence r <= 1)%Q.
Proof.
  pose (w1 := snd (get_people_data ex_world (ex_sheets_env (Some [row_ayse])))).
  pose (run := reconcile no_name_found float_of_json ex_settings w1
                 (ex_env [row_ayse] LlmRaises)
                 (ex_request None (Some "0555 123 45 67"))
                 (row_to_person row_ayse)).
  assert (Hrun : chat_endpoint str_lower str_strip sm_ratio no_name_found
                   float_of_json ex_settings ex_world
                   (ex_env [row_ayse] LlmRaises)
                   (ex_request None (Some "0555 123 45 67"))
                 = (Http200 (fst run), snd run)) by reflexivity.
  exists (fst run), (snd run). split; [exact Hrun|].
  exact (response_confidence_in_range _ _ _ _ _ _ _ _ _ _ _ Hrun).
Defined.

(** Example: an entry [model] of the generated metadata is passed on, next
    to the request id. *)
Lemma meta_enrichment_is_additive_witness :
  exists r w2 m,
    chat_endpoint str_lower str_strip sm_ratio no_name_found float_of_json
      ex_settings ex_world
      (ex_env [row_ayse]
         (LlmJson (JObj (answer_with_meta
                           (JObj (<["model" := JStr "flash"]> ∅))))))
      (ex_request None (Some "0555 123 45 67"))
    = (Http200 r, w2)
    /\ meta r = Some m
    /\ m !! "request_id" = Some (JStr "1a2b3c4d")
    /\ m !! "model" = Some (JStr "flash").
Proof.
  destruct (meta_enrichment_is_additive str_lower str_strip sm_ratio
              no_name_found float_of_json ex_settings ex_world
              (ex_env [row_ayse]
                 (LlmJson (JObj (answer_with_meta
                                   (JObj (<["model" := JStr "flash"]> ∅))))))
              (ex_request None (Some "0555 123 45 67"))
              (parse_rows [row_ayse])
              (snd (get_people_data ex_world (ex_sheets_env (Some [row_ayse]))))
              (row_to_person row_ayse))
    as (r & w2 & m & Hrun & Hmeta & Hid & _ & _ & Hother); try reflexivity.
  exists r, w2, m. repeat split; try assumption.
  rewrite (Hother "model"); [reflexivity|].
  cbn. intros H. repeat (destruct H as [H|H]; [discriminate|]). exact H.
Defined.

(** Example: a request locale of its own wins; an empty one gives way to
    the locale stored for the person. *)
Lemma request_locale_priority_witness :
  request_locale ex_settings
    (ex_request_locale (Some "0555 123 45 67") (Some "en-US"))
    (row_to_person row_ayse) = "en-US"
  /\ request_locale ex_settings
       (ex_request_locale (Some "0555 123 45 67") (Some ""))
       (row_to_person row_ayse) = "tr-TR"
  /\ request_locale ex_settings
       (ex_request_locale (Some "0555 123 45 67") None) ∅ = "tr-TR".
Proof.
  split; [|split].
  - apply (proj1 (request_locale_priority ex_settings
                    (ex_request_locale (Some "0555 123 45 67") (Some "en-US"))
                    (row_to_person row_ayse))); reflexivity.
  - exact (proj1 (proj2 (request_locale_priority ex_settings
                    (ex_request_locale (Some "0555 123 45 67") (Some ""))
                    (row_to_person row_ayse))) eq_refl eq_refl).
  - exact (proj2 (proj2 (request_locale_priority ex_settings
                    (ex_request_locale (Some "0555 123 45 67") None) ∅))
             eq_refl eq_refl).
Defined.

(** Example: an unresolved request that asks for [en-US] is answered with
    [locale_used] set to the default locale. *)
Lemma not_found_response_metadata_witness :
  exists r m,
    chat_endpoint str_lower str_strip sm_ratio no_name_found float_of_json
      ex_settings ex_world
      (ex_env [row_ayse; row_mehmet] LlmRaises)
      (ex_request_locale (Some "0555 000 00 00") (Some "en-US"))
    = (Http200 r,
       snd (get_people_data ex_world
              (ex_sheets_env (Some [row_ayse; row_mehmet]))))
    /\ meta r = Some m
    /\ m !! "locale_used" = Some (JStr "tr-TR")
    /\ m !! "request_id" = None.
Proof.
  destruct (not_found_response_metadata str_lower str_strip sm_ratio
              no_name_found float_of_json ex_settings ex_world
              (ex_env [row_ayse; row_mehmet] LlmRaises)
              (ex_request_locale (Some "0555 000 00 00") (Some "en-US"))
              (parse_rows [row_ayse; row_mehmet])
              (snd (get_people_data ex_world
                      (ex_sheets_env (Some [row_ayse; row_mehmet])))))
    as (r & m & Hrun & _ & Hmeta & Hloc & _ & Hid & _); try reflexivity.
  exists r, m. auto.
Defined.

(** Example: [references] given as a string, and a confidence of 1.5. *)
Lemma ill_typed_answer_falls_back_witness :
  answer_of float_of_json (build_facts (row_to_person row_ayse)) "tr-TR"
    (LlmJson (JObj (<["references" := JStr "People"]> (answer_json []))))
  = _fallback "tr-TR" (Some "p1")
  /\ answer_of float_of_json (build_facts (row_to_person row_ayse)) "tr-TR"
       (LlmJson (JObj (<["confidence" := JNum 1.5]> (answer_json []))))
     = _fallback "tr-TR" (Some "p1").
Proof.
  destruct (ill_typed_answer_falls_back float_of_json
              (build_facts (row_to_person row_ayse)) "tr-TR")
    as (_ & Hrefs & _ & Hconf).
  split.
  - apply (Hrefs _ (JStr "People")); [reflexivity|reflexivity|discriminate].
  - apply (Hconf _ 1.5%Q); [reflexivity|]. right. reflexivity.
Defined.

(** Example: a first call that authorizes and opens, then two more calls
    during which the outside would fail. *)
Lemma sheet_is_opened_once_witness :
  let start := {| _client := None; _sheet := None |} in
  let up := {| authorize := Some 7%nat;
               open_by_key := fun _ => Some "People book" |} in
  let down := {| authorize := None; open_by_key := fun _ => None |} in
  fst (_get_sheet (after_calls (snd (_get_sheet start up)) [down; down]) down)
  = Return "People book".
Proof.
  intros start up down.
  destruct (sheet_is_opened_once start up "People book"
              (snd (_get_sheet start up)) eq_refl [down; down] down)
    as [_ H].
  rewrite H. reflexivity.
Defined.


(** Example: the lists returned by the first call and by the cached second
    call hold well-formed records. *)
Lemma cached_records_are_well_formed_witness :
  cache_ok ex_world_loaded
  /\ Forall record_ok (parse_rows [row_ayse; row_mehmet]).
Proof.
  destruct (cached_records_are_well_formed ex_settings ex_world
              (ex_sheets_env (Some [row_ayse; row_mehmet]))) as [H0 H1].
  destruct (H1 H0) as [Hok Hret]. split; [exact Hok|].
  apply Hret. reflexivity.
Defined.

(** Example: the request with the local form of Ayse's number, the table
    holding a short row and Mehmet's row before hers. *)
Lemma phone_request_resolves_sheet_row_witness :
  exists r w' m,
    chat_endpoint str_lower str_strip sm_ratio no_name_found float_of_json
      ex_settings ex_world
      (ex_env [row_short; row_mehmet; row_ayse] LlmRaises)
      (ex_request None (Some "0555 123 45 67"))
    = (Http200 r, w')
    /\ meta r = Some m
    /\ m !! "match" = Some (JStr "phone")
    /\ In (people_reference "p1") (references r).
Proof.
  destruct (phone_request_resolves_sheet_row str_lower str_strip sm_ratio
              no_name_found float_of_json ex_settings ex_world
              (ex_env [row_short; row_mehmet; row_ayse] LlmRaises)
              (ex_request None (Some "0555 123 45 67"))
              [row_short; row_mehmet] [] row_ayse "0555 123 45 67")
    as (_ & r & w' & m & Hrun & Hmeta & Htag & Hin); try reflexivity.
  - intros r [<-|[<-|[]]]; [discriminate|]. intros _. discriminate.
  - exists r, w', m. repeat split; try assumption. apply Hin. reflexivity.
Defined.
